(** * The AI model lifecycle controller of the settings UI

    A shallow embedding of the React components that let the user select,
    pull and delete the models of the local model-serving daemon:

    - [AiModelSelector]   (the controller: state, event listeners, handlers,
                           [getDisplayText]),
    - [AiModelDropdown]   (the list of models: [isModelDownloaded], the
                           progress row),
    - [AiEnhancementSettings] (the "Test Enhancement" panel).

    JavaScript strings are sequences of UTF-16 code units, numbers are
    modelled by rationals (every finite double is one; [Math.round] and
    [Math.min] are exact on them), a [Map] is an association list in
    insertion order, and an [async] function is a program that runs up to
    its next [await] and is resumed when the awaited promise settles. *)

From Stdlib Require Import List String Ascii ZArith NArith QArith Qround Qminmax.
From Stdlib Require Import Bool Lia DecimalString.
Import ListNotations.

Set Implicit Arguments.

(* ================================================================== *)
(** ** JavaScript values *)
(* ================================================================== *)

Module Js.

(** A string is its sequence of UTF-16 code units. *)
Definition jsstring : Type := list N.

(** An ASCII literal of the source, as code units. *)
Definition js (s : string) : jsstring :=
  List.map N_of_ascii (list_ascii_of_string s).

(** [a === b] on strings. *)
Fixpoint eqb (a b : jsstring) : bool :=
  match a, b with
  | [], [] => true
  | x :: a', y :: b' => N.eqb x y && eqb a' b'
  | _, _ => false
  end.

(** [m.startsWith(p)]. *)
Fixpoint startsWith (m p : jsstring) {struct p} : bool :=
  match p with
  | [] => true
  | x :: p' =>
      match m with
      | y :: m' => N.eqb x y && startsWith m' p'
      | [] => false
      end
  end.

(** Truthiness of a string: only the empty string is falsy. *)
Definition truthy (s : jsstring) : bool :=
  match s with [] => false | _ :: _ => true end.

(** [a || b] on strings. *)
Definition or_else (a b : jsstring) : jsstring :=
  if truthy a then a else b.

(** The code units that [String.prototype.trim] strips: WhiteSpace and
    LineTerminator of ECMAScript (TAB, LF, VT, FF, CR, SP, NBSP, U+1680,
    U+2000..U+200A, U+2028, U+2029, U+202F, U+205F, U+3000, U+FEFF). *)
Definition is_whitespace (c : N) : bool :=
  ((9 <=? c) && (c <=? 13) || (c =? 32) || (c =? 160) || (c =? 5760)
   || (8192 <=? c) && (c <=? 8202) || (c =? 8232) || (c =? 8233)
   || (c =? 8239) || (c =? 8287) || (c =? 12288) || (c =? 65279))%N.

Fixpoint trimStart (s : jsstring) : jsstring :=
  match s with
  | c :: s' => if is_whitespace c then trimStart s' else s
  | [] => []
  end.

Definition trimEnd (s : jsstring) : jsstring := rev (trimStart (rev s)).

(** [s.trim()]. *)
Definition trim (s : jsstring) : jsstring := trimEnd (trimStart s).

(** A number. *)
Definition number : Type := Q.

(** [x > y] on numbers. *)
Definition gt (x y : number) : bool := negb (Qle_bool x y).

(** [Math.round(x)]: the integer closest to [x], ties towards +infinity. *)
Definition Math_round (x : number) : Z := Qfloor (x + (1 # 2))%Q.

(** [Math.min(x, y)]. *)
Definition Math_min (x y : number) : number := Qmin x y.

(** An integer inside a template literal (decimal digits; what
    [Number::toString] yields for an integer of magnitude below 1e21). *)
Definition Number_toString (n : Z) : jsstring :=
  js (NilZero.string_of_int (Z.to_int n)).

(** *** [Map<string, V>]: the entries in insertion order *)
Section JsMap.
Variable V : Type.

Definition JsMap : Type := list (jsstring * V).

(** [m.get(k)]. *)
Fixpoint map_get (k : jsstring) (m : JsMap) : option V :=
  match m with
  | [] => None
  | (k', v) :: m' => if eqb k' k then Some v else map_get k m'
  end.

(** [m.set(k, v)]: an existing key keeps its place, a new key goes last. *)
Fixpoint map_set (k : jsstring) (v : V) (m : JsMap) : JsMap :=
  match m with
  | [] => [(k, v)]
  | (k', v') :: m' =>
      if eqb k' k then (k', v) :: m' else (k', v') :: map_set k v m'
  end.

(** [m.delete(k)]. *)
Definition map_delete (k : jsstring) (m : JsMap) : JsMap :=
  filter (fun e => negb (eqb (fst e) k)) m.

(** [m.size]. *)
Definition map_size (m : JsMap) : nat := List.length m.

(** [Array.from(m.values())]. *)
Definition map_values (m : JsMap) : list V := List.map snd m.

Definition map_keys (m : JsMap) : list jsstring := List.map fst m.
End JsMap.

End Js.

Import Js.

(* ================================================================== *)
(** ** The data exchanged with the backend *)
(* ================================================================== *)

(** [interface AiModel]. *)
Record AiModel : Type := {
  id : jsstring;
  size_mb : number;
  speed : jsstring;
  quality : jsstring;
  notes : jsstring
}.

(** [interface PullProgress]. *)
Record PullProgress : Type := {
  model_id : jsstring;
  status : jsstring;
  completed : option number;
  total : option number;
  percentage : number
}.

(** [type AiModelStatus]. *)
Inductive AiModelStatus : Type :=
| ready
| pulling
| error
| not_installed
| ollama_unavailable.

(** The tagged result of a backend command:
    [{ status: "ok", data }] or [{ status: "error", error }]. *)
Inductive result (A : Type) : Type :=
| ok (data : A)
| err (message : jsstring).
Arguments err {A} message.

(** How an awaited promise settles. *)
Inductive settled (A : Type) : Type :=
| resolved (a : A)
| rejected.
Arguments rejected {A}.

(** The asynchronous calls of the components: the [commands] of the backend
    facade, and [updateSetting] of the settings accessor for the key
    ["ai_selected_model"]. The index is the type the promise resolves to. *)
Inductive command : Type -> Type :=
| checkOllamaAvailable : command (result bool)
| getAvailableAiModels : command (result (list AiModel))
| listOllamaModels : command (result (list jsstring))
| getRecommendedAiModel : command (result jsstring)
| pullOllamaModel (modelId : jsstring) : command (result unit)
| deleteOllamaModel (modelId : jsstring) : command (result unit)
| testAiEnhancement (text : jsstring) : command (result jsstring)
| updateSetting_ai_selected_model (value : option jsstring) : command unit.

(** What a component does to the outside world. *)
Inductive effect : Type :=
| invoke {R : Type} (c : command R)
| toast_success (message : jsstring)
| toast_info (message : jsstring)
| toast_error (message : jsstring)
| console_error (message : jsstring).

(** The calls that reach the backend command facade. *)
Definition is_backend_call (e : effect) : bool :=
  match e with
  | invoke (updateSetting_ai_selected_model _) => false
  | invoke _ => true
  | _ => false
  end.

(** The calls that persist a selection. *)
Definition is_selection_write (e : effect) : bool :=
  match e with
  | invoke (updateSetting_ai_selected_model _) => true
  | _ => false
  end.

Definition is_invoke (e : effect) : bool :=
  match e with invoke _ => true | _ => false end.

Definition is_toast_error (e : effect) : bool :=
  match e with toast_error _ => true | _ => false end.

(* ================================================================== *)
(** ** Asynchronous handlers *)
(* ================================================================== *)

Module Async.
Section WithState.

(** The state of the component (what its [useState] cells and the settings
    store hold). *)
Variable St : Type.

(** The body of an event listener or of an [async] function. *)
Inductive prog : Type :=
| Done
| SetState (f : St -> St) (k : prog)
| Emit (e : effect) (k : prog)
| Await {R : Type} (c : command R) (k : settled R -> prog)
| Fork (p : prog) (k : prog).

(** [await p(); q] for an [async] function [p] that never rejects. *)
Fixpoint seq (p q : prog) : prog :=
  match p with
  | Done => q
  | SetState f k => SetState f (seq k q)
  | Emit e k => Emit e (seq k q)
  | Await c k => Await c (fun r => seq (k r) q)
  | Fork p' k => Fork p' (seq k q)
  end.

(** A suspended [async] function: the call it awaits and what it does when
    the call settles. *)
Inductive task : Type :=
| Waiting {R : Type} (c : command R) (k : settled R -> prog).

(** One turn of the event loop: run [p] from state [s] up to its first
    [await]. A call [f()] that is not awaited ([Fork]) runs [f] up to its
    own first [await] and goes on. *)
Fixpoint run (p : prog) (s : St) : St * list effect * list task :=
  match p with
  | Done => (s, [], [])
  | SetState f k => run k (f s)
  | Emit e k =>
      let '(s', es, ts) := run k s in (s', e :: es, ts)
  | Await c k => (s, [invoke c], [Waiting c k])
  | Fork p' k =>
      let '(s1, es1, ts1) := run p' s in
      let '(s2, es2, ts2) := run k s1 in
      (s2, es1 ++ es2, ts1 ++ ts2)
  end.

(** The component between two turns: its state, the suspended functions
    and everything it has done so far. *)
Record config : Type := {
  ui : St;
  pool : list task;
  log : list effect
}.

Definition start (s : St) : config := {| ui := s; pool := []; log := [] |}.

(** Run [p] as one turn of [c]. *)
Definition fire (p : prog) (c : config) : config :=
  let '(s, es, ts) := run p (ui c) in
  {| ui := s; pool := pool c ++ ts; log := log c ++ es |}.

(** What the outside answers to an awaited call. *)
Inductive answer : Type :=
| answer_bool (r : settled (result bool))
| answer_models (r : settled (result (list AiModel)))
| answer_strings (r : settled (result (list jsstring)))
| answer_string (r : settled (result jsstring))
| answer_unit (r : settled (result unit))
| answer_setting (r : settled unit).

(** An answer of the type the call expects. *)
Definition accept {R : Type} (c : command R) (a : answer)
  : option (settled R) :=
  match c in command R0 return option (settled R0) with
  | checkOllamaAvailable =>
      match a with answer_bool r => Some r | _ => None end
  | getAvailableAiModels =>
      match a with answer_models r => Some r | _ => None end
  | listOllamaModels =>
      match a with answer_strings r => Some r | _ => None end
  | getRecommendedAiModel =>
      match a with answer_string r => Some r | _ => None end
  | pullOllamaModel _ =>
      match a with answer_unit r => Some r | _ => None end
  | deleteOllamaModel _ =>
      match a with answer_unit r => Some r | _ => None end
  | testAiEnhancement _ =>
      match a with answer_string r => Some r | _ => None end
  | updateSetting_ai_selected_model _ =>
      match a with answer_setting r => Some r | _ => None end
  end.

(** Take the [n]-th element out of a list. *)
Fixpoint take_out {A : Type} (n : nat) (l : list A) : option (A * list A) :=
  match l, n with
  | [], _ => None
  | x :: l', O => Some (x, l')
  | x :: l', S n' =>
      match take_out n' l' with
      | Some (y, r) => Some (y, x :: r)
      | None => None
      end
  end.

(** The [n]-th suspended function is resumed with answer [a]. Nothing
    happens when there is no such function or the answer is not of the
    type it awaits. *)
Definition settle (n : nat) (a : answer) (c : config) : config :=
  match take_out n (pool c) with
  | Some (Waiting cmd k, rest) =>
      match accept cmd a with
      | Some r =>
          fire (k r) {| ui := ui c; pool := rest; log := log c |}
      | None => c
      end
  | None => c
  end.

(** A handler followed from its call to its end: every awaited call [c] is
    answered by [oracle c], and whatever else happens to the component
    while the handler waits for [c] is [env c]. Functions the handler calls
    without awaiting them are run up to their first [await] only. *)
Fixpoint exec (oracle : forall R, command R -> settled R)
  (env : forall R, command R -> St -> St)
  (p : prog) (s : St) : St * list effect :=
  match p with
  | Done => (s, [])
  | SetState f k => exec oracle env k (f s)
  | Emit e k =>
      let '(s', es) := exec oracle env k s in (s', e :: es)
  | Await c k =>
      let '(s', es) := exec oracle env (k (oracle _ c)) (env _ c s) in
      (s', invoke c :: es)
  | Fork p' k =>
      let '(s1, es1, _) := run p' s in
      let '(s2, es2) := exec oracle env k s1 in
      (s2, es1 ++ es2)
  end.

End WithState.

Arguments Done {St}.
Arguments start {St} s.

End Async.

Import Async.

Declare Scope prog_scope.
Delimit Scope prog_scope with prog.
Notation "a ;; k" := (a k%prog)
  (at level 61, right associativity, only parsing) : prog_scope.
Notation "r <- 'await' c ;; k" := (Await c (fun r => k%prog))
  (at level 61, c at next level, right associativity, only parsing)
  : prog_scope.

(* ================================================================== *)
(** ** [AiModelSelector]: the controller *)
(* ================================================================== *)

Module AiModelSelector.

(** The [useState] cells of the component, and the entry
    ["ai_selected_model"] of the settings store it reads through
    [getSetting]. *)
Record State : Type := {
  availableModels : list AiModel;
  downloadedModels : list jsstring;
  modelStatus : AiModelStatus;
  showDropdown : bool;
  ollamaAvailable : bool;
  pullProgress : JsMap PullProgress;
  recommendedModel : jsstring;
  ai_selected_model : option jsstring
}.

(** The initial values of the cells, over a settings store that holds
    [setting]. *)
Definition initial (setting : option jsstring) : State := {|
  availableModels := [];
  downloadedModels := [];
  modelStatus := not_installed;
  showDropdown := false;
  ollamaAvailable := false;
  pullProgress := [];
  recommendedModel := js "";
  ai_selected_model := setting
|}.

Definition setAvailableModels (v : list AiModel) (s : State) : State := {|
  availableModels := v;
  downloadedModels := downloadedModels s;
  modelStatus := modelStatus s;
  showDropdown := showDropdown s;
  ollamaAvailable := ollamaAvailable s;
  pullProgress := pullProgress s;
  recommendedModel := recommendedModel s;
  ai_selected_model := ai_selected_model s
|}.

Definition setDownloadedModels (v : list jsstring) (s : State) : State := {|
  availableModels := availableModels s;
  downloadedModels := v;
  modelStatus := modelStatus s;
  showDropdown := showDropdown s;
  ollamaAvailable := ollamaAvailable s;
  pullProgress := pullProgress s;
  recommendedModel := recommendedModel s;
  ai_selected_model := ai_selected_model s
|}.

Definition setModelStatus (v : AiModelStatus) (s : State) : State := {|
  availableModels := availableModels s;
  downloadedModels := downloadedModels s;
  modelStatus := v;
  showDropdown := showDropdown s;
  ollamaAvailable := ollamaAvailable s;
  pullProgress := pullProgress s;
  recommendedModel := recommendedModel s;
  ai_selected_model := ai_selected_model s
|}.

Definition setShowDropdown (v : bool) (s : State) : State := {|
  availableModels := availableModels s;
  downloadedModels := downloadedModels s;
  modelStatus := modelStatus s;
  showDropdown := v;
  ollamaAvailable := ollamaAvailable s;
  pullProgress := pullProgress s;
  recommendedModel := recommendedModel s;
  ai_selected_model := ai_selected_model s
|}.

Definition setOllamaAvailable (v : bool) (s : State) : State := {|
  availableModels := availableModels s;
  downloadedModels := downloadedModels s;
  modelStatus := modelStatus s;
  showDropdown := showDropdown s;
  ollamaAvailable := v;
  pullProgress := pullProgress s;
  recommendedModel := recommendedModel s;
  ai_selected_model := ai_selected_model s
|}.

(** [setPullProgress((prev) => f(prev))]. *)
Definition setPullProgress
  (f : JsMap PullProgress -> JsMap PullProgress) (s : State) : State := {|
  availableModels := availableModels s;
  downloadedModels := downloadedModels s;
  modelStatus := modelStatus s;
  showDropdown := showDropdown s;
  ollamaAvailable := ollamaAvailable s;
  pullProgress := f (pullProgress s);
  recommendedModel := recommendedModel s;
  ai_selected_model := ai_selected_model s
|}.

Definition setRecommendedModel (v : jsstring) (s : State) : State := {|
  availableModels := availableModels s;
  downloadedModels := downloadedModels s;
  modelStatus := modelStatus s;
  showDropdown := showDropdown s;
  ollamaAvailable := ollamaAvailable s;
  pullProgress := pullProgress s;
  recommendedModel := v;
  ai_selected_model := ai_selected_model s
|}.

(** The settings store takes a new value for ["ai_selected_model"]. *)
Definition persist (v : option jsstring) (s : State) : State := {|
  availableModels := availableModels s;
  downloadedModels := downloadedModels s;
  modelStatus := modelStatus s;
  showDropdown := showDropdown s;
  ollamaAvailable := ollamaAvailable s;
  pullProgress := pullProgress s;
  recommendedModel := recommendedModel s;
  ai_selected_model := v
|}.

(** [const selectedModel = getSetting("ai_selected_model") || ""]. *)
Definition selectedModel (s : State) : jsstring :=
  match ai_selected_model s with
  | Some v => or_else v (js "")
  | None => js ""
  end.

(** Modelled from the spec: the [useSettings] hook is not among the
    sources. The settings accessor "exposes [updateSetting(key, value)]
    over a persisted key-value store"; a write that resolves has persisted
    the value, a write that is rejected leaves the prior one. *)
Definition updateSetting (value : option jsstring)
  (k : settled unit -> prog State) : prog State :=
  Await (updateSetting_ai_selected_model value)
    (fun r =>
       match r with
       | resolved _ => SetState (persist value) (k r)
       | rejected => k r
       end).

Local Open Scope prog_scope.

Definition loadRecommendation : prog State :=
  result <- await getRecommendedAiModel ;;
  match result with
  | resolved (ok data) =>
      if truthy data then SetState (setRecommendedModel data) ;; Done
      else Done
  | resolved (err _) => Done
  | rejected => Emit (console_error (js "Failed to get recommended model:")) ;; Done
  end.

(** [selectedModel] is the value the effect closed over when the component
    was mounted. *)
Definition checkOllama (selectedModel : jsstring) : prog State :=
  result <- await checkOllamaAvailable ;;
  match result with
  | resolved result =>
      let available :=
        match result with ok data => data | err _ => false end in
      SetState (setOllamaAvailable available) ;;
      if negb available then
        SetState (setModelStatus ollama_unavailable) ;; Done
      else if truthy selectedModel then
        SetState (setModelStatus ready) ;; Done
      else
        SetState (setModelStatus not_installed) ;; Done
  | rejected =>
      SetState (setOllamaAvailable false) ;;
      SetState (setModelStatus ollama_unavailable) ;; Done
  end.

Definition loadModels : prog State :=
  availResult <- await getAvailableAiModels ;;
  match availResult with
  | resolved availResult =>
      match availResult with
      | ok data => SetState (setAvailableModels data)
      | err _ => fun k => k
      end ;;
      downloadedResult <- await listOllamaModels ;;
      match downloadedResult with
      | resolved (ok data) => SetState (setDownloadedModels data) ;; Done
      | resolved (err _) => Done
      | rejected => Emit (console_error (js "Failed to load AI models:")) ;; Done
      end
  | rejected => Emit (console_error (js "Failed to load AI models:")) ;; Done
  end.

Definition handleModelSelect (modelId : jsstring) : prog State :=
  updateSetting (Some modelId) (fun r =>
    match r with
    | resolved _ =>
        SetState (setModelStatus ready) ;;
        SetState (setShowDropdown false) ;;
        Emit (toast_success (js "Switched to " ++ modelId)) ;; Done
    | rejected =>
        Emit (toast_error (js "Failed to select model")) ;; Done
    end).

Definition handleModelPull (modelId : jsstring) : prog State :=
  SetState (setModelStatus pulling) ;;
  Emit (toast_info
          (js "Pulling " ++ modelId ++ js "... This may take a few minutes.")) ;;
  result <- await pullOllamaModel modelId ;;
  match result with
  | resolved (ok _) =>
      handleModelSelect modelId
  | resolved (err message) =>
      Emit (toast_error (or_else message (js "Failed to pull model"))) ;;
      SetState (setModelStatus error) ;;
      SetState (setPullProgress (map_delete modelId)) ;; Done
  | rejected =>
      Emit (toast_error (js "Failed to pull model")) ;;
      SetState (setModelStatus error) ;;
      SetState (setPullProgress (map_delete modelId)) ;; Done
  end.

(** [confirm] is the blocking prompt of the window; [selectedModel] is the
    value of the render the handler belongs to. *)
Definition handleModelDelete (confirm : jsstring -> bool)
  (selectedModel modelId : jsstring) : prog State :=
  let confirmed :=
    confirm (js "Delete " ++ modelId ++ js "? This will remove it from Ollama.") in
  if negb confirmed then Done
  else
    result <- await deleteOllamaModel modelId ;;
    match result with
    | resolved (ok _) =>
        Emit (toast_success (modelId ++ js " deleted")) ;;
        seq loadModels
          (if eqb selectedModel modelId then
             updateSetting None (fun r =>
               match r with
               | resolved _ => SetState (setModelStatus not_installed) ;; Done
               | rejected =>
                   Emit (toast_error (js "Failed to delete model")) ;; Done
               end)
           else Done)
    | resolved (err message) =>
        Emit (toast_error (or_else message (js "Failed to delete model"))) ;; Done
    | rejected =>
        Emit (toast_error (js "Failed to delete model")) ;; Done
    end.

(** The listener of ["ai-model-pull-progress"]. *)
Definition on_pull_progress (progress : PullProgress) : prog State :=
  SetState (setPullProgress (map_set (model_id progress) progress)) ;;
  SetState (setModelStatus pulling) ;; Done.

(** The listener of ["ai-model-pull-complete"]. *)
Definition on_pull_complete (modelId : jsstring) : prog State :=
  SetState (setPullProgress (map_delete modelId)) ;;
  Fork loadModels ;;
  Emit (toast_success (modelId ++ js " downloaded successfully!")) ;;
  SetState (setModelStatus ready) ;; Done.

(** The body of the mount effect (the listeners are registered by it and
    live until the component is unmounted). *)
Definition mount (selectedModel : jsstring) : prog State :=
  Fork loadModels ;;
  Fork (checkOllama selectedModel) ;;
  Fork loadRecommendation ;; Done.

Local Close Scope prog_scope.

Definition getDisplayText (s : State) : jsstring :=
  match map_values (pullProgress s) with
  | progress :: _ =>
      if gt (percentage progress) 0 then
        js "Pulling " ++ Number_toString (Math_round (percentage progress)) ++ js "%"
      else
        js "Pulling " ++ status progress ++ js "..."
  | [] =>
      match modelStatus s with
      | ready => or_else (selectedModel s) (js "No Model Selected")
      | pulling => js "Pulling model..."
      | error => js "Error"
      | not_installed => js "No Model - Pull Required"
      | ollama_unavailable => js "Ollama Not Running"
      end
  end.

(** What happens to the mounted component. *)
Inductive input : Type :=
| Mount
| PullProgressEvent (progress : PullProgress)
| PullCompleteEvent (modelId : jsstring)
| StatusButtonClick
| OnModelSelect (modelId : jsstring)
| OnModelPull (modelId : jsstring)
| OnModelDelete (modelId : jsstring) (confirmed : bool)
| Settle (n : nat) (a : answer).

Definition step (c : config State) (i : input) : config State :=
  match i with
  | Mount => fire (mount (selectedModel (ui c))) c
  | PullProgressEvent progress => fire (on_pull_progress progress) c
  | PullCompleteEvent modelId => fire (on_pull_complete modelId) c
  | StatusButtonClick =>
      fire (SetState (setShowDropdown (negb (showDropdown (ui c)))) Done) c
  | OnModelSelect modelId => fire (handleModelSelect modelId) c
  | OnModelPull modelId => fire (handleModelPull modelId) c
  | OnModelDelete modelId confirmed =>
      fire (handleModelDelete (fun _ => confirmed)
              (selectedModel (ui c)) modelId) c
  | Settle n a => settle n a c
  end.

(** The component after a history of inputs. *)
Definition steps (c : config State) (l : list input) : config State :=
  fold_left step l c.

End AiModelSelector.

(* ================================================================== *)
(** ** [AiModelDropdown]: the list of models *)
(* ================================================================== *)

Module AiModelDropdown.
Section Props.

(** The props of the component that the functions below read. *)
Variable downloadedModels : list jsstring.
Variable selectedModel : jsstring.
Variable recommendedModel : option jsstring.
Variable pullProgress : JsMap PullProgress.

Definition isModelDownloaded (modelId : jsstring) : bool :=
  existsb (fun m => startsWith m modelId) downloadedModels.

Definition getModelProgress (modelId : jsstring) : option PullProgress :=
  map_get modelId pullProgress.

Definition isRecommended (modelId : jsstring) : bool :=
  match recommendedModel with
  | Some r => eqb r modelId
  | None => false
  end.

(** The progress block of a model's row: the status phrase, the percentage
    label (rendered only when the percentage is positive) and the width of
    the bar, in percent. *)
Record progress_block : Type := {
  phrase : jsstring;
  label : option jsstring;
  width : number
}.

Definition render_progress (progress : PullProgress) : progress_block := {|
  phrase := status progress;
  label :=
    if gt (percentage progress) 0 then
      Some (Number_toString (Math_round (percentage progress)) ++ js "%")
    else None;
  width := Math_min 100 (percentage progress)
|}.

(** What a row shows of a model. *)
Record row : Type := {
  isDownloaded : bool;
  isSelected : bool;
  isPulling : bool;
  recommended : bool;
  block : option progress_block
}.

Definition render_row (model : AiModel) : row :=
  let progress := getModelProgress (id model) in {|
    isDownloaded := isModelDownloaded (id model);
    isSelected := eqb selectedModel (id model);
    isPulling := match progress with Some _ => true | None => false end;
    recommended := isRecommended (id model);
    block := option_map render_progress progress
  |}.

End Props.
End AiModelDropdown.

(* ================================================================== *)
(** ** [AiEnhancementSettings]: the test panel *)
(* ================================================================== *)

Module AiEnhancementSettings.

Record State : Type := {
  ollamaAvailable : bool;
  testText : jsstring;
  testResult : jsstring;
  isTesting : bool;
  systemInfo : option number
}.

Definition initial : State := {|
  ollamaAvailable := false;
  testText := js "";
  testResult := js "";
  isTesting := false;
  systemInfo := None
|}.

Definition setTestText (v : jsstring) (s : State) : State := {|
  ollamaAvailable := ollamaAvailable s;
  testText := v;
  testResult := testResult s;
  isTesting := isTesting s;
  systemInfo := systemInfo s
|}.

Definition setTestResult (v : jsstring) (s : State) : State := {|
  ollamaAvailable := ollamaAvailable s;
  testText := testText s;
  testResult := v;
  isTesting := isTesting s;
  systemInfo := systemInfo s
|}.

Definition setIsTesting (v : bool) (s : State) : State := {|
  ollamaAvailable := ollamaAvailable s;
  testText := testText s;
  testResult := testResult s;
  isTesting := v;
  systemInfo := systemInfo s
|}.

Local Open Scope prog_scope.

(** [testText] is the value of the render the handler belongs to. *)
Definition handleTestEnhancement (testText : jsstring) : prog State :=
  if negb (truthy (trim testText)) then
    Emit (toast_error (js "Please enter some text to test")) ;; Done
  else
    SetState (setIsTesting true) ;;
    SetState (setTestResult (js "")) ;;
    result <- await testAiEnhancement testText ;;
    match result with
    | resolved (ok data) =>
        SetState (setTestResult data) ;;
        Emit (toast_success (js "Enhancement complete!")) ;;
        SetState (setIsTesting false) ;; Done
    | resolved (err message) =>
        Emit (toast_error (or_else message (js "Enhancement failed"))) ;;
        SetState (setIsTesting false) ;; Done
    | rejected =>
        Emit (toast_error (js "Enhancement failed")) ;;
        SetState (setIsTesting false) ;; Done
    end.

Local Close Scope prog_scope.

End AiEnhancementSettings.

(* ================================================================== *)
(** ** [AiStatusIndicator]: the indicator of the footer *)
(* ================================================================== *)

Module AiStatusIndicator.

(** [type AiStatus]. *)
Inductive AiStatus : Type :=
| ready
| loading
| pulling
| error
| off
| no_ollama.

(** [interface AiPullProgress]. *)
Record AiPullProgress : Type := {
  model : jsstring;
  status_phrase : jsstring;
  completed : number;
  total : number;
  percentage : number
}.

Record State : Type := {
  status : AiStatus;
  currentModel : jsstring;
  downloadedModels : list jsstring;
  ollamaAvailable : bool;
  pullProgress : option AiPullProgress;
  showTooltip : bool
}.

Definition initial : State := {|
  status := off;
  currentModel := js "";
  downloadedModels := [];
  ollamaAvailable := false;
  pullProgress := None;
  showTooltip := false
|}.

Definition setStatus (v : AiStatus) (s : State) : State := {|
  status := v;
  currentModel := currentModel s;
  downloadedModels := downloadedModels s;
  ollamaAvailable := ollamaAvailable s;
  pullProgress := pullProgress s;
  showTooltip := showTooltip s
|}.

Definition setCurrentModel (v : jsstring) (s : State) : State := {|
  status := status s;
  currentModel := v;
  downloadedModels := downloadedModels s;
  ollamaAvailable := ollamaAvailable s;
  pullProgress := pullProgress s;
  showTooltip := showTooltip s
|}.

Definition setDownloadedModels (v : list jsstring) (s : State) : State := {|
  status := status s;
  currentModel := currentModel s;
  downloadedModels := v;
  ollamaAvailable := ollamaAvailable s;
  pullProgress := pullProgress s;
  showTooltip := showTooltip s
|}.

Definition setOllamaAvailable (v : bool) (s : State) : State := {|
  status := status s;
  currentModel := currentModel s;
  downloadedModels := downloadedModels s;
  ollamaAvailable := v;
  pullProgress := pullProgress s;
  showTooltip := showTooltip s
|}.

Definition setPullProgress (v : option AiPullProgress) (s : State) : State := {|
  status := status s;
  currentModel := currentModel s;
  downloadedModels := downloadedModels s;
  ollamaAvailable := ollamaAvailable s;
  pullProgress := v;
  showTooltip := showTooltip s
|}.

(** [data.includes(x)] on an array of strings. *)
Definition includes (data : list jsstring) (x : jsstring) : bool :=
  existsb (fun m => eqb m x) data.

Local Open Scope prog_scope.

(** [aiEnabled] and [selectedModel] are the values of the render whose
    effect calls the function. *)
Definition checkStatus (aiEnabled : bool) (selectedModel : jsstring)
  : prog State :=
  available <- await checkOllamaAvailable ;;
  match available with
  | resolved available =>
      let isAvailable :=
        match available with ok data => data | err _ => false end in
      SetState (setOllamaAvailable isAvailable) ;;
      if negb isAvailable then SetState (setStatus no_ollama) ;; Done
      else if negb aiEnabled then SetState (setStatus off) ;; Done
      else
        models <- await listOllamaModels ;;
        match models with
        | resolved (ok data) =>
            SetState (setDownloadedModels data) ;;
            if truthy selectedModel && includes data selectedModel then
              SetState (setCurrentModel selectedModel) ;;
              SetState (setStatus ready) ;; Done
            else if truthy selectedModel then
              SetState (setStatus loading) ;; Done
            else
              SetState (setStatus off) ;; Done
        | resolved (err _) => Done
        | rejected => SetState (setStatus error) ;; Done
        end
  | rejected => SetState (setStatus error) ;; Done
  end.

(** The listener of ["ai-model-pull-progress"]. *)
Definition on_pull_progress (payload : AiPullProgress) : prog State :=
  SetState (setPullProgress (Some payload)) ;;
  SetState (setStatus pulling) ;; Done.

(** The listener of ["ai-model-pull-complete"]. *)
Definition on_pull_complete (aiEnabled : bool) (selectedModel : jsstring)
  : prog State :=
  SetState (setPullProgress None) ;;
  Fork (checkStatus aiEnabled selectedModel) ;; Done.

Local Close Scope prog_scope.

End AiStatusIndicator.

(* ================================================================== *)
(** ** What the displays read *)
(* ================================================================== *)

Module Display.
Import AiModelSelector.

(** The percentage the displays print for the entry of [modelId]:
    [Math.round(progress.percentage)], in [getDisplayText] and in the row of
    the dropdown. *)
Definition shown_percentage (modelId : jsstring) (s : State) : option Z :=
  option_map (fun progress => Math_round (percentage progress))
    (map_get modelId (pullProgress s)).

(** The percentages read for [modelId] after each of a sequence of
    progress events. *)
Fixpoint readings (modelId : jsstring) (c : config State)
  (events : list PullProgress) : list Z :=
  match events with
  | [] => []
  | progress :: events' =>
      let c' := step c (PullProgressEvent progress) in
      match shown_percentage modelId (ui c') with
      | Some n => n :: readings modelId c' events'
      | None => readings modelId c' events'
      end
  end.

Fixpoint nondecreasing (l : list Z) : Prop :=
  match l with
  | x :: (y :: _) as l' => (x <= y)%Z /\ nondecreasing l'
  | _ => True
  end.

Fixpoint nondecreasingQ (l : list number) : Prop :=
  match l with
  | x :: (y :: _) as l' => (x <= y)%Q /\ nondecreasingQ l'
  | _ => True
  end.

(** The catalog refreshes a history has triggered: the calls of
    [loadModels]. *)
Definition is_catalog_refresh (e : effect) : bool :=
  match e with
  | invoke getAvailableAiModels => true
  | _ => false
  end.

Definition refreshes (l : list effect) : nat :=
  List.length (filter is_catalog_refresh l).

End Display.

(* ================================================================== *)
(** ** Answers of the outside *)
(* ================================================================== *)

Module Outside.

(** Nothing else happens while a handler waits. *)
Definition quiet {St : Type} : forall R, command R -> St -> St :=
  fun _ _ s => s.

(** Every call is rejected. *)
Definition refusing : forall R, command R -> settled R :=
  fun _ _ => rejected.

(** Every call succeeds: the backend is available, knows and has
    downloaded nothing, and the settings store takes every write. *)
Definition obliging : forall R, command R -> settled R :=
  fun R c =>
    match c in command R0 return settled R0 with
    | checkOllamaAvailable => resolved (ok true)
    | getAvailableAiModels => resolved (ok [])
    | listOllamaModels => resolved (ok [])
    | getRecommendedAiModel => resolved (ok (js ""))
    | pullOllamaModel _ => resolved (ok tt)
    | deleteOllamaModel _ => resolved (ok tt)
    | testAiEnhancement text => resolved (ok text)
    | updateSetting_ai_selected_model _ => resolved tt
    end.

(** As [obliging], but the backend has downloaded [names]. *)
Definition listing (names : list jsstring)
  : forall R, command R -> settled R :=
  fun R c =>
    match c in command R0 return settled R0 with
    | listOllamaModels => resolved (ok names)
    | c' => obliging c'
    end.

(** As [obliging], but a pull fails as [failure] says. *)
Definition failing_pull (failure : settled (result unit))
  : forall R, command R -> settled R :=
  fun R c =>
    match c in command R0 return settled R0 with
    | pullOllamaModel _ => failure
    | c' => obliging c'
    end.

(** The message a failed call carries, if it carries one. *)
Definition error_of {A : Type} (r : settled (result A)) : option jsstring :=
  match r with
  | resolved (err message) => Some message
  | _ => None
  end.

Definition succeeded {A : Type} (r : settled (result A)) : bool :=
  match r with
  | resolved (ok _) => true
  | _ => false
  end.

End Outside.

(* ================================================================== *)
(** ** Histories of the controller *)
(* ================================================================== *)

Module Scenarios.
Import AiModelSelector.

Definition fast_1b : jsstring := js "fast-1b".

(** A progress event of the backend. *)
Definition downloading (modelId : jsstring) (percent : number)
  : PullProgress := {|
  model_id := modelId;
  status := js "downloading";
  completed := None;
  total := None;
  percentage := percent
|}.

(** The component is mounted and its availability check (the second call
    of the mount effect) has found no backend. *)
Definition unavailable : config State :=
  steps (start (initial None))
    [Mount; Settle 1 (answer_bool (resolved (ok false)))].

(** ... and then a progress event arrives. *)
Definition unavailable_pulling : config State :=
  step unavailable (PullProgressEvent (downloading fast_1b 50)).

(** A pull is started, a progress event arrives, and the backend call
    returns success before any completion event. *)
Definition pull_returned_first : config State :=
  steps (start (initial None))
    [OnModelPull fast_1b;
     PullProgressEvent (downloading fast_1b 50);
     Settle 0 (answer_unit (resolved (ok tt)))].

(** The pull has failed (which clears the entry), and the completion
    event arrives second. *)
Definition pull_failed : config State :=
  steps (start (initial None))
    [OnModelPull fast_1b;
     PullProgressEvent (downloading fast_1b 50);
     Settle 0 (answer_unit (resolved (err (js "connection reset"))))].

(** The completion event arrives while the backend call is still pending. *)
Definition completion_arrived_first : config State :=
  steps (start (initial None))
    [OnModelPull fast_1b;
     PullProgressEvent (downloading fast_1b 50);
     PullCompleteEvent fast_1b].

End Scenarios.

(* ================================================================== *)
(** ** Histories that leave the entry of a model alone *)
(* ================================================================== *)

Module Frame.
Import AiModelSelector Outside.

(** The progress map has an entry for [modelId]. *)
Definition has_entry (modelId : jsstring) (s : State) : bool :=
  match map_get modelId (pullProgress s) with
  | Some _ => true
  | None => false
  end.

(** [r] is the failure of the backend call that pulls [modelId]. *)
Definition pull_failure_of (modelId : jsstring) {R : Type}
  (c : command R) : settled R -> Prop :=
  match c in command R0 return settled R0 -> Prop with
  | pullOllamaModel m => fun r => m = modelId /\ succeeded r = false
  | _ => fun _ => False
  end.

(** No turn of [p] removes the entry of [modelId], as long as the pull of
    [modelId] is not answered by a failure. *)
Fixpoint keeps (modelId : jsstring) (p : prog State) : Prop :=
  match p with
  | Done => True
  | SetState f k =>
      (forall s, has_entry modelId s = true -> has_entry modelId (f s) = true)
      /\ keeps modelId k
  | Emit _ k => keeps modelId k
  | Await c k => forall r, ~ pull_failure_of modelId c r -> keeps modelId (k r)
  | Fork p' k => keeps modelId p' /\ keeps modelId k
  end.

Definition task_keeps (modelId : jsstring) (t : task State) : Prop :=
  match t with
  | Waiting c k => forall r, ~ pull_failure_of modelId c r -> keeps modelId (k r)
  end.

(** An input other than the completion event of [modelId] and the failure
    of its pull. *)
Definition allowed (modelId : jsstring) (c : config State) (i : input)
  : Prop :=
  match i with
  | PullCompleteEvent m => m <> modelId
  | Settle n a =>
      match take_out n (pool c) with
      | Some (Waiting cmd k, _) =>
          match accept cmd a with
          | Some r => ~ pull_failure_of modelId cmd r
          | None => True
          end
      | None => True
      end
  | _ => True
  end.

(** The invariant of such a history: the entry is there, and no suspended
    function will remove it. *)
Definition entry_is_safe (modelId : jsstring) (c : config State) : Prop :=
  has_entry modelId (ui c) = true /\ Forall (task_keeps modelId) (pool c).

Fixpoint all_allowed (modelId : jsstring) (c : config State)
  (l : list input) : Prop :=
  match l with
  | [] => True
  | i :: l' => allowed modelId c i /\ all_allowed modelId (step c i) l'
  end.

End Frame.

(* ================================================================== *)
(** ** More answers of the outside *)
(* ================================================================== *)

Module Answers.
Import Outside.

(** The settings store refuses every write; the backend does as asked. *)
Definition read_only_settings : forall R, command R -> settled R :=
  fun R c =>
    match c in command R0 return settled R0 with
    | updateSetting_ai_selected_model _ => rejected
    | c' => obliging c'
    end.

(** The backend is not running: the availability check says so, and every
    other call fails. *)
Definition backend_down : forall R, command R -> settled R :=
  fun R c =>
    match c in command R0 return settled R0 with
    | checkOllamaAvailable => resolved (ok false)
    | updateSetting_ai_selected_model _ => resolved tt
    | getAvailableAiModels => resolved (err (js "Ollama is not running"))
    | listOllamaModels => resolved (err (js "Ollama is not running"))
    | getRecommendedAiModel => resolved (err (js "Ollama is not running"))
    | pullOllamaModel _ => resolved (err (js "Ollama is not running"))
    | deleteOllamaModel _ => resolved (err (js "Ollama is not running"))
    | testAiEnhancement _ => resolved (err (js "Ollama is not running"))
    end.

End Answers.

(* ================================================================== *)
(** ** Invariants of a component *)
(* ================================================================== *)

Module Invariants.
Section WithState.

Variable St : Type.

(** What is to hold of the state, and of everything the component does. *)
Variable P : St -> Prop.
Variable Q : effect -> Prop.

(** Every update of [p] keeps [P], and everything [p] does is in [Q],
    however its awaited calls are answered. *)
Fixpoint safe (p : prog St) : Prop :=
  match p with
  | Done => True
  | SetState f k => (forall s, P s -> P (f s)) /\ safe k
  | Emit e k => Q e /\ safe k
  | Await c k => Q (invoke c) /\ forall r, safe (k r)
  | Fork p' k => safe p' /\ safe k
  end.

Definition task_safe (t : task St) : Prop :=
  match t with
  | Waiting c k => forall r, safe (k r)
  end.

Definition config_safe (c : config St) : Prop :=
  P (ui c) /\ Forall Q (log c) /\ Forall task_safe (pool c).

End WithState.
End Invariants.

(* ================================================================== *)
(** ** [AiModelSelector]: what it renders *)
(* ================================================================== *)

Module AiModelSelectorView.
Import AiModelSelector Invariants.

(** The rows of the dropdown, from the props the selector passes to it. *)
Definition dropdown_row (s : State) (model : AiModel) : AiModelDropdown.row :=
  AiModelDropdown.render_row (downloadedModels s) (selectedModel s)
    (Some (recommendedModel s)) (pullProgress s) model.

(** The program an input runs as its turn; the answer to an awaited call
    resumes a suspended function instead. *)
Definition handler (c : config State) (i : input) : option (prog State) :=
  match i with
  | Mount => Some (mount (selectedModel (ui c)))
  | PullProgressEvent progress => Some (on_pull_progress progress)
  | PullCompleteEvent modelId => Some (on_pull_complete modelId)
  | StatusButtonClick =>
      Some (SetState (setShowDropdown (negb (showDropdown (ui c)))) Done)
  | OnModelSelect modelId => Some (handleModelSelect modelId)
  | OnModelPull modelId => Some (handleModelPull modelId)
  | OnModelDelete modelId confirmed =>
      Some (handleModelDelete (fun _ => confirmed)
              (selectedModel (ui c)) modelId)
  | Settle _ _ => None
  end.

(** Every entry of the progress map is stored under the id it carries, and
    no id has two entries. *)
Definition well_keyed (s : State) : Prop :=
  NoDup (map_keys (pullProgress s))
  /\ Forall (fun entry => model_id (snd entry) = fst entry) (pullProgress s).

(** The inputs that come from the backend: its events and its answers. *)
Definition from_backend (i : input) : Prop :=
  match i with
  | PullProgressEvent _ | PullCompleteEvent _ | Settle _ _ => True
  | _ => False
  end.

Definition is_availability_check (e : effect) : bool :=
  match e with
  | invoke checkOllamaAvailable => true
  | _ => false
  end.

End AiModelSelectorView.

(* ================================================================== *)
(** ** [AiModelDropdown]: the buttons of a row *)
(* ================================================================== *)

Module AiModelDropdownButtons.
Import AiModelDropdown.

(** What a click on a button of the dropdown calls. *)
Inductive click : Type :=
| onModelSelect (modelId : jsstring)
| onModelPull (modelId : jsstring)
| onModelDelete (modelId : jsstring).

(** What a button shows: a text (the Pull button also has an icon) or
    the trash icon alone. *)
Inductive face : Type :=
| text (caption : jsstring)
| trash.

Record button : Type := {
  shows : face;
  disabled : bool;
  onClick : option click
}.

Section Props.
Variable downloadedModels : list jsstring.
Variable selectedModel : jsstring.
Variable pullProgress : JsMap PullProgress.

(** The column of buttons of a row. *)
Definition buttons (model : AiModel) : list button :=
  let isDownloaded := isModelDownloaded downloadedModels (id model) in
  let isSelected := eqb selectedModel (id model) in
  let isPulling :=
    match getModelProgress pullProgress (id model) with
    | Some _ => true
    | None => false
    end in
  if isPulling then
    [{| shows := text (js "Pulling..."); disabled := true; onClick := None |}]
  else if isDownloaded then
    [{| shows := text (if isSelected then js "Active" else js "Use");
        disabled := isSelected;
        onClick := Some (onModelSelect (id model)) |};
     {| shows := trash;
        disabled := false;
        onClick := Some (onModelDelete (id model)) |}]
  else
    [{| shows := text (js "Pull");
        disabled := false;
        onClick := Some (onModelPull (id model)) |}].

(** The green check mark of a row. *)
Definition check_mark (model : AiModel) : bool :=
  isModelDownloaded downloadedModels (id model)
  && negb (match getModelProgress pullProgress (id model) with
           | Some _ => true
           | None => false
           end).

End Props.

(** What the user can call from a list of buttons. *)
Fixpoint clicks (l : list button) : list click :=
  match l with
  | [] => []
  | b :: l' =>
      match onClick b with
      | Some c => if disabled b then clicks l' else c :: clicks l'
      | None => clicks l'
      end
  end.

End AiModelDropdownButtons.

(** The buttons of a row of the dropdown the selector renders. *)
Module SelectorDropdown.
Import AiModelSelector.

Definition dropdown_buttons (s : State) (model : AiModel)
  : list AiModelDropdownButtons.button :=
  AiModelDropdownButtons.buttons (downloadedModels s) (selectedModel s)
    (pullProgress s) model.

Definition dropdown_check_mark (s : State) (model : AiModel) : bool :=
  AiModelDropdownButtons.check_mark (downloadedModels s) (pullProgress s) model.

End SelectorDropdown.

(* ================================================================== *)
(** ** [AiModelStatusButton] *)
(* ================================================================== *)

Module AiModelStatusButton.

Definition getStatusColor (status : AiModelStatus) : jsstring :=
  match status with
  | ready => js "bg-green-400"
  | pulling => js "bg-logo-primary animate-pulse"
  | error => js "bg-red-400"
  | not_installed => js "bg-yellow-400"
  | ollama_unavailable => js "bg-red-400"
  end.

End AiModelStatusButton.

(* ================================================================== *)
(** ** [AiEnhancementSettings]: the rest of the panel *)
(* ================================================================== *)

Module AiEnhancementSettingsView.
Import AiEnhancementSettings.

Definition setOllamaAvailable (v : bool) (s : State) : State := {|
  ollamaAvailable := v;
  testText := testText s;
  testResult := testResult s;
  isTesting := isTesting s;
  systemInfo := systemInfo s
|}.

Local Open Scope prog_scope.

Definition checkOllama : prog State :=
  available <- await checkOllamaAvailable ;;
  match available with
  | resolved (ok data) => SetState (setOllamaAvailable data) ;; Done
  | resolved (err _) => SetState (setOllamaAvailable false) ;; Done
  | rejected => SetState (setOllamaAvailable false) ;; Done
  end.

Local Close Scope prog_scope.

(** [disabled={isTesting || !testText.trim()}] of the test button. *)
Definition test_button_disabled (s : State) : bool :=
  isTesting s || negb (truthy (trim (testText s))).

(** The result box is rendered when [testResult] is truthy. *)
Definition result_shown (s : State) : bool := truthy (testResult s).

End AiEnhancementSettingsView.

(* ================================================================== *)
(** ** [AiStatusIndicator]: what it renders *)
(* ================================================================== *)

Module AiStatusIndicatorView.
Import AiStatusIndicator.

(** [s.split(":")[0]]: the part of [s] before its first colon. *)
Fixpoint before_colon (s : jsstring) : jsstring :=
  match s with
  | [] => []
  | c :: s' => if (c =? 58)%N then [] else c :: before_colon s'
  end.

Definition getStatusColor (s : State) : jsstring :=
  match status s with
  | ready => js "bg-logo-primary"
  | loading => js "bg-yellow-400 animate-pulse"
  | pulling => js "bg-blue-400 animate-pulse"
  | error => js "bg-red-400"
  | no_ollama => js "bg-red-400/50"
  | off => js "bg-mid-gray/40"
  end.

Definition getDisplayText (s : State) : jsstring :=
  match status s, pullProgress s with
  | pulling, Some progress =>
      Number_toString (Math_round (percentage progress)) ++ js "%"
  | _, _ =>
      match status s with
      | ready => or_else (before_colon (currentModel s)) (js "AI")
      | loading => js "Loading..."
      | pulling => js "Pulling..."
      | error => js "Error"
      | no_ollama => js "No Ollama"
      | off => js "AI Off"
      end
  end.

(** [disabled={status === "no_ollama" || status === "pulling"}] of the
    button. *)
Definition button_disabled (s : State) : bool :=
  match status s with
  | no_ollama | pulling => true
  | _ => false
  end.

End AiStatusIndicatorView.

(* ================================================================== *)
(** ** Facts about the JavaScript values *)
(* ================================================================== *)

Module JsFacts.

Lemma eqb_eq (a b : jsstring) : eqb a b = true <-> a = b.
Proof.
  revert b; induction a as [|x a IH]; intros [|y b]; simpl;
    try (split; [discriminate | discriminate]); [tauto|].
  rewrite andb_true_iff, N.eqb_eq, IH.
  split; [intros [-> ->]; reflexivity | intros E; inversion E; auto].
Qed.

Lemma eqb_refl (a : jsstring) : eqb a a = true.
Proof. apply eqb_eq; reflexivity. Qed.

Lemma eqb_neq (a b : jsstring) : eqb a b = false <-> a <> b.
Proof.
  rewrite <- eqb_eq. destruct (eqb a b); split; congruence.
Qed.

(** [startsWith] is the prefix relation. *)
Lemma startsWith_prefix (m p : jsstring) :
  startsWith m p = true <-> exists suffix, m = p ++ suffix.
Proof.
  revert m; induction p as [|x p IH]; intros m; simpl.
  - split; [intros _; exists m; reflexivity | reflexivity].
  - destruct m as [|y m].
    + split; [discriminate | intros [s E]; discriminate].
    + rewrite andb_true_iff, N.eqb_eq, IH. split.
      * intros [-> [s ->]]; exists s; reflexivity.
      * intros [s E]; inversion E; subst; split; [reflexivity | exists s; reflexivity].
Qed.

(** *** [trim] *)

Lemma trimStart_blank (s : jsstring) :
  trimStart s = [] <-> Forall (fun c => is_whitespace c = true) s.
Proof.
  induction s as [|c s IH]; simpl.
  - split; [constructor | reflexivity].
  - destruct (is_whitespace c) eqn:W.
    + rewrite IH; split; [intros H; constructor; assumption
                         | intros H; inversion H; assumption].
    + split; [discriminate | intros H; inversion H; congruence].
Qed.

Lemma trimStart_head (s : jsstring) (c : N) (t : jsstring) :
  trimStart s = c :: t -> is_whitespace c = false.
Proof.
  induction s as [|d s IH]; simpl; [discriminate|].
  destruct (is_whitespace d) eqn:W; [exact IH|].
  intros E; inversion E; subst; exact W.
Qed.

(** [s.trim()] is the empty string exactly when [s] is empty or made of
    white space only. *)
Lemma trim_blank (s : jsstring) :
  trim s = [] <-> Forall (fun c => is_whitespace c = true) s.
Proof.
  unfold trim, trimEnd. split.
  - intros H.
    assert (H' : trimStart (rev (trimStart s)) = []).
    { apply (f_equal (@rev N)) in H. rewrite rev_involutive in H. exact H. }
    apply trimStart_blank in H'.
    destruct (trimStart s) as [|c t] eqn:E.
    + apply trimStart_blank; exact E.
    + exfalso. pose proof (trimStart_head _ E) as W.
      rewrite Forall_forall in H'.
      rewrite (H' c) in W; [discriminate|].
      apply in_rev; rewrite rev_involutive; left; reflexivity.
  - intros H. apply trimStart_blank in H. rewrite H. reflexivity.
Qed.

Lemma trim_blank_falsy (s : jsstring) :
  Forall (fun c => is_whitespace c = true) s -> truthy (trim s) = false.
Proof. intros H; apply trim_blank in H; rewrite H; reflexivity. Qed.

(** *** Numbers *)

Lemma Math_round_monotone (x y : number) :
  (x <= y)%Q -> (Math_round x <= Math_round y)%Z.
Proof.
  intros H; unfold Math_round; apply Qfloor_resp_le.
  apply Qplus_le_l; exact H.
Qed.

Lemma Math_round_100 : Math_round 100 = 100%Z.
Proof. reflexivity. Qed.

Lemma Math_round_le_100 (x : number) :
  (x <= 100)%Q -> (Math_round x <= 100)%Z.
Proof.
  intros H. rewrite <- Math_round_100. apply Math_round_monotone; exact H.
Qed.

Lemma Math_min_le_l (x y : number) : (Math_min x y <= x)%Q.
Proof. apply Q.le_min_l. Qed.

(** *** Maps *)
Section MapFacts.
Variable V : Type.
Implicit Types (m : JsMap V) (k : jsstring) (v : V).

Lemma map_get_set_eq m k v : map_get k (map_set k v m) = Some v.
Proof.
  induction m as [|[k' v'] m IH]; simpl.
  - rewrite eqb_refl; reflexivity.
  - destruct (eqb k' k) eqn:E; simpl; rewrite E; [reflexivity | exact IH].
Qed.

Lemma map_get_set_ne m k k' v :
  k <> k' -> map_get k' (map_set k v m) = map_get k' m.
Proof.
  intros N. induction m as [|[k0 v0] m IH]; simpl.
  - apply eqb_neq in N; rewrite N; reflexivity.
  - destruct (eqb k0 k) eqn:E; simpl.
    + apply eqb_eq in E; subst k0.
      apply eqb_neq in N; rewrite N; reflexivity.
    + rewrite IH; reflexivity.
Qed.

Lemma map_get_delete_eq m k : map_get k (map_delete k m) = None.
Proof.
  unfold map_delete. induction m as [|[k' v'] m IH]; simpl; [reflexivity|].
  destruct (eqb k' k) eqn:E; simpl; [exact IH | rewrite E; exact IH].
Qed.

Lemma map_get_delete_ne m k k' :
  k <> k' -> map_get k' (map_delete k m) = map_get k' m.
Proof.
  intros N. unfold map_delete.
  induction m as [|[k0 v0] m IH]; simpl; [reflexivity|].
  destruct (eqb k0 k) eqn:E; simpl.
  - apply eqb_eq in E; subst k0.
    apply eqb_neq in N; rewrite N; exact IH.
  - rewrite IH; reflexivity.
Qed.

(** Deleting a key that has no entry changes nothing. *)
Lemma map_delete_absent m k : map_get k m = None -> map_delete k m = m.
Proof.
  unfold map_delete. induction m as [|[k' v'] m IH]; simpl; [reflexivity|].
  destruct (eqb k' k) eqn:E; simpl; [discriminate|].
  intros H; rewrite (IH H); reflexivity.
Qed.

(** A key keeps a single entry. *)
Lemma map_set_keys_NoDup m k v :
  NoDup (map_keys m) -> NoDup (map_keys (map_set k v m)).
Proof.
  unfold map_keys.
  assert (K : forall m0, incl (List.map fst (map_set k v m0))
                           (k :: List.map fst m0)).
  { induction m0 as [|[k0 v0] m0 IH0]; simpl.
    - intros x [<-|[]]; left; reflexivity.
    - destruct (eqb k0 k); simpl.
      + intros x [<-|H]; [right; left; reflexivity | right; right; exact H].
      + intros x [<-|H]; [right; left; reflexivity|].
        destruct (IH0 x H) as [<-|H']; [left; reflexivity | right; right; exact H']. }
  induction m as [|[k' v'] m IH]; simpl; intros ND.
  - constructor; [intros [] | constructor].
  - inversion ND as [|? ? NI ND']; subst.
    destruct (eqb k' k) eqn:E; simpl.
    + constructor; assumption.
    + constructor; [|apply IH; assumption].
      intros I. destruct (K m k' I) as [<-|I']; [|contradiction].
      rewrite eqb_refl in E; discriminate.
Qed.

Lemma map_delete_keys_NoDup m k :
  NoDup (map_keys m) -> NoDup (map_keys (map_delete k m)).
Proof.
  unfold map_keys, map_delete.
  induction m as [|[k' v'] m IH]; simpl; intros ND; [constructor|].
  inversion ND as [|? ? NI ND']; subst.
  destruct (eqb k' k); simpl; [apply IH; assumption|].
  constructor; [|apply IH; assumption].
  intros I. apply NI. apply in_map_iff in I. destruct I as ([k0 v0] & E & I).
  apply filter_In in I. apply in_map_iff. exists (k0, v0). tauto.
Qed.

End MapFacts.

End JsFacts.

(* ================================================================== *)
(** ** The downloaded-membership check *)
(* ================================================================== *)

Module DropdownFacts.
Import AiModelDropdown JsFacts.

(** The check of the dropdown. For every catalog id and every list of
    downloaded models, [isModelDownloaded] answers [true] exactly when some
    entry of the list starts with the id; with ["fast-1b-q4"] downloaded,
    ["fast-1b"] is reported as downloaded. *)
Theorem isModelDownloaded_prefix :
  (forall (downloadedModels : list jsstring) (modelId : jsstring),
      isModelDownloaded downloadedModels modelId = true <->
      exists m, In m downloadedModels /\ exists suffix, m = modelId ++ suffix)
  /\ isModelDownloaded [js "fast-1b-q4"] (js "fast-1b") = true.
Proof.
  split; [|reflexivity].
  intros downloadedModels modelId. unfold isModelDownloaded.
  rewrite existsb_exists. split.
  - intros (m & I & S). exists m. split; [exact I|].
    apply startsWith_prefix; exact S.
  - intros (m & I & S). exists m. split; [exact I|].
    apply startsWith_prefix; exact S.
Qed.

(** The indicator of the footer, a component of its own, asks whether the
    selected model is among the downloaded ones with [includes]: there
    ["fast-1b"] is not found in a list that holds ["fast-1b-q4"], and the
    indicator stays at [loading]. *)
Remark indicator_compares_for_equality :
  AiStatusIndicator.includes [js "fast-1b-q4"] (js "fast-1b") = false
  /\ AiStatusIndicator.status
       (fst (exec (Outside.listing [js "fast-1b-q4"]) Outside.quiet
               (AiStatusIndicator.checkStatus true (js "fast-1b"))
               AiStatusIndicator.initial))
     = AiStatusIndicator.loading.
Proof. split; reflexivity. Qed.

(** C5. The claim holds of the check of the dropdown and fails in the
    other check of the repository. With ["fast-1b-q4"] the only downloaded
    model and ["fast-1b"] selected, an entry of the list starts with the id
    and [isModelDownloaded] reports the model as downloaded, as the claim
    says; but [checkStatus] of the indicator, which compares with
    [includes], does not find the model and sets the status to [loading]
    instead of [ready]. *)
Theorem indicator_misses_a_suffixed_download :
  let downloaded := [js "fast-1b-q4"] in
  let checked :=
    fst (exec (Outside.listing downloaded) Outside.quiet
           (AiStatusIndicator.checkStatus true (js "fast-1b"))
           AiStatusIndicator.initial) in
  (exists m suffix, In m downloaded /\ m = js "fast-1b" ++ suffix)
  /\ isModelDownloaded downloaded (js "fast-1b") = true
  /\ AiStatusIndicator.includes downloaded (js "fast-1b") = false
  /\ AiStatusIndicator.downloadedModels checked = downloaded
  /\ AiStatusIndicator.status checked = AiStatusIndicator.loading
  /\ AiStatusIndicator.status checked <> AiStatusIndicator.ready.
Proof.
  cbv zeta. split.
  - exists (js "fast-1b-q4"), (js "-q4"). split; [left|]; reflexivity.
  - repeat split. discriminate.
Qed.

(** The bar of a progress block is never wider than 100 percent. *)
Lemma width_le_100 (progress : PullProgress) :
  (width (render_progress progress) <= 100)%Q.
Proof. simpl. apply Math_min_le_l. Qed.

End DropdownFacts.

(* ================================================================== *)
(** ** The test panel *)
(* ================================================================== *)

Module TestPanelFacts.
Import AiEnhancementSettings JsFacts.

(** C10. When the test input is empty or made of white space only,
    [handleTestEnhancement] stops at its guard: the only thing it does is
    the error notification; no call is made, nothing is left pending, and
    the state (so the result shown and the testing flag) is as before. *)
Theorem blank_test_input_is_refused (s : State) :
  Forall (fun c => is_whitespace c = true) (testText s) ->
  run (handleTestEnhancement (testText s)) s
  = (s, [toast_error (js "Please enter some text to test")], [])
  /\ filter is_invoke (snd (fst (run (handleTestEnhancement (testText s)) s))) = []
  /\ testResult (fst (fst (run (handleTestEnhancement (testText s)) s)))
     = testResult s
  /\ isTesting (fst (fst (run (handleTestEnhancement (testText s)) s)))
     = isTesting s.
Proof.
  intros B. unfold handleTestEnhancement.
  rewrite (trim_blank_falsy B). simpl. repeat split.
Qed.

Lemma blank_test_input_is_refused_witness :
  let s := setTestResult (js "Previous result.")
             (setTestText (js "   ") initial) in
  run (handleTestEnhancement (testText s)) s
  = (s, [toast_error (js "Please enter some text to test")], [])
  /\ filter is_invoke (snd (fst (run (handleTestEnhancement (testText s)) s))) = []
  /\ testResult (fst (fst (run (handleTestEnhancement (testText s)) s)))
     = testResult s
  /\ isTesting (fst (fst (run (handleTestEnhancement (testText s)) s)))
     = isTesting s.
Proof.
  intros s. apply (blank_test_input_is_refused s).
  simpl. repeat constructor.
Defined.

(** With any other input the handler does call the backend. *)
Lemma test_input_is_sent (s : State) :
  ~ Forall (fun c => is_whitespace c = true) (testText s) ->
  snd (fst (run (handleTestEnhancement (testText s)) s))
  = [invoke (testAiEnhancement (testText s))].
Proof.
  intros B. unfold handleTestEnhancement.
  destruct (trim (testText s)) eqn:E.
  - exfalso; apply B; apply trim_blank; exact E.
  - reflexivity.
Qed.

End TestPanelFacts.

(* ================================================================== *)
(** ** Pulling a model *)
(* ================================================================== *)

Module PullFacts.
Import AiModelSelector JsFacts Outside Scenarios.

(** C2, as stated, fails: with the backend reported unavailable, a pull of
    ["fast-1b"] is not rejected; it calls the backend and the status reads
    [pulling]. *)
Lemma pull_while_unavailable_calls_backend :
  let c := step unavailable (OnModelPull (js "fast-1b")) in
  ollamaAvailable (ui unavailable) = false
  /\ modelStatus (ui unavailable) = ollama_unavailable
  /\ skipn (List.length (log unavailable)) (log c)
     = [toast_info (js "Pulling fast-1b... This may take a few minutes.");
        invoke (pullOllamaModel (js "fast-1b"))]
  /\ filter is_backend_call (skipn (List.length (log unavailable)) (log c)) <> []
  /\ modelStatus (ui c) = pulling
  /\ modelStatus (ui c) <> ollama_unavailable.
Proof.
  vm_compute. repeat split; discriminate.
Qed.

(** C2, amended. Whatever the backend availability, [handleModelPull] is
    not rejected: it sets the status to [pulling], shows an info
    notification and makes exactly one backend call, the pull of the model,
    on whose answer it waits; the availability is neither read nor
    changed. *)
Theorem pull_ignores_availability (s : State) (modelId : jsstring) :
  fst (fst (run (handleModelPull modelId) s)) = setModelStatus pulling s
  /\ snd (fst (run (handleModelPull modelId) s))
     = [toast_info
          (js "Pulling " ++ modelId ++ js "... This may take a few minutes.");
        invoke (pullOllamaModel modelId)]
  /\ filter is_backend_call (snd (fst (run (handleModelPull modelId) s)))
     = [invoke (pullOllamaModel modelId)]
  /\ List.length (snd (run (handleModelPull modelId) s)) = 1%nat
  /\ ollamaAvailable (fst (fst (run (handleModelPull modelId) s)))
     = ollamaAvailable s.
Proof. repeat split. Qed.

End PullFacts.

(* ================================================================== *)
(** ** How a pull ends *)
(* ================================================================== *)

Module PullOutcomeFacts.
Import AiModelSelector JsFacts Outside.

Section Handler.
Variable oracle : forall R, command R -> settled R.
Variable env : forall R, command R -> State -> State.
Variable s : State.
Variable modelId : jsstring.

(** The state in which the answer to the pull finds the component. *)
Let resumed : State :=
  env (pullOllamaModel modelId) (setModelStatus pulling s).

(** C7. When the backend call of [handleModelPull] fails (an error
    result, or a rejected promise), the entry of the model is removed
    from the progress map, the status is set to [error], and one error
    notification is shown: the message of the backend if it carries a
    non-empty one, else ["Failed to pull model"]. No selection is
    written: the selected model is the one the answer found. *)
Theorem pull_failure_is_surfaced :
  succeeded (oracle (pullOllamaModel modelId)) = false ->
  let out := exec oracle env (handleModelPull modelId) s in
  let surfaced :=
    match error_of (oracle (pullOllamaModel modelId)) with
    | Some ((_ :: _) as message) => message
    | _ => js "Failed to pull model"
    end in
  map_get modelId (pullProgress (fst out)) = None
  /\ pullProgress (fst out) = map_delete modelId (pullProgress resumed)
  /\ modelStatus (fst out) = error
  /\ filter is_toast_error (snd out) = [toast_error surfaced]
  /\ filter is_invoke (snd out) = [invoke (pullOllamaModel modelId)]
  /\ filter is_selection_write (snd out) = []
  /\ ai_selected_model (fst out) = ai_selected_model resumed.
Proof.
  intros F. unfold handleModelPull. cbn [exec].
  destruct (oracle (pullOllamaModel modelId)) as [[[]|message]|] eqn:O;
    [discriminate F | |]; cbn -[map_delete map_get].
  - rewrite map_get_delete_eq. destruct message; repeat split.
  - rewrite map_get_delete_eq. repeat split.
Qed.

(** C4, amended. When the backend call of [handleModelPull] returns
    success, the handler goes on as [handleModelSelect] of the pulled model:
    it writes the model to the settings store and nothing else is called.
    When that write resolves, the model is the persisted selection, the
    dropdown is closed, the status is [ready] and "Switched to ..." is
    shown. When the write is rejected, the handler leaves the state as the
    answer found it, selection, dropdown and status included, and shows
    "Failed to select model". *)
Theorem pull_success_goes_on_as_select :
  oracle (pullOllamaModel modelId) = resolved (ok tt) ->
  let write := updateSetting_ai_selected_model (Some modelId) in
  let out := exec oracle env (handleModelPull modelId) s in
  fst out = fst (exec oracle env (handleModelSelect modelId) resumed)
  /\ filter is_invoke (snd out) = [invoke (pullOllamaModel modelId); invoke write]
  /\ (oracle write = resolved tt ->
      ai_selected_model (fst out) = Some modelId
      /\ showDropdown (fst out) = false
      /\ modelStatus (fst out) = ready
      /\ In (toast_success (js "Switched to " ++ modelId)) (snd out)
      /\ filter is_toast_error (snd out) = [])
  /\ (oracle write = rejected ->
      fst out = env write resumed
      /\ filter is_toast_error (snd out)
         = [toast_error (js "Failed to select model")]
      /\ ~ In (toast_success (js "Switched to " ++ modelId)) (snd out)).
Proof.
  intros P. cbv zeta. unfold handleModelPull, handleModelSelect, updateSetting.
  cbn [exec]. rewrite P. cbn [exec].
  destruct (oracle (updateSetting_ai_selected_model (Some modelId))) as [[]|];
    cbn.
  - split; [reflexivity|]. split; [reflexivity|]. split; [|discriminate].
    intros _. repeat split. right; right; right; left; reflexivity.
  - split; [reflexivity|]. split; [reflexivity|]. split; [discriminate|].
    intros _. repeat split. intros [H|[H|[H|[H|[]]]]]; discriminate H.
Qed.

End Handler.

Lemma pull_failure_is_surfaced_witness :
  let oracle := failing_pull (resolved (err (js "model not found"))) in
  let s := initial None in
  let out := exec oracle quiet (handleModelPull (js "fast-1b")) s in
  modelStatus (fst out) = error
  /\ filter is_toast_error (snd out) = [toast_error (js "model not found")].
Proof.
  intros oracle s out.
  destruct (pull_failure_is_surfaced oracle quiet s (js "fast-1b"))
    as (_ & _ & E & T & _); [reflexivity|].
  split; [exact E | exact T].
Defined.

Lemma pull_success_goes_on_as_select_witness :
  let s := setShowDropdown true (initial None) in
  let out := exec obliging quiet (handleModelPull (js "fast-1b")) s in
  let lost := exec Answers.read_only_settings quiet
                (handleModelPull (js "fast-1b")) s in
  (ai_selected_model (fst out) = Some (js "fast-1b")
   /\ showDropdown (fst out) = false
   /\ modelStatus (fst out) = ready)
  /\ fst lost = setModelStatus pulling s.
Proof.
  intros s out lost. split.
  - destruct (pull_success_goes_on_as_select obliging quiet s (js "fast-1b"))
      as (_ & _ & R & _); [reflexivity|].
    destruct R as (A & B & C & _); [reflexivity|].
    repeat split; assumption.
  - destruct (pull_success_goes_on_as_select Answers.read_only_settings quiet
                s (js "fast-1b")) as (_ & _ & _ & R); [reflexivity|].
    destruct R as (A & _); [reflexivity|]. exact A.
Defined.

(** C4, as stated, fails: the backend call returns success, but the
    settings store rejects the write; no model is selected, the dropdown is
    still open and the status still reads [pulling]. *)
Lemma pull_success_with_rejected_write_selects_nothing :
  let s := setShowDropdown true (initial None) in
  let c :=
    steps (start s)
      [OnModelPull (js "fast-1b");
       Settle 0 (answer_unit (resolved (ok tt)));
       Settle 0 (answer_setting rejected)] in
  ai_selected_model (ui c) = None
  /\ ai_selected_model (ui c) <> Some (js "fast-1b")
  /\ showDropdown (ui c) = true
  /\ modelStatus (ui c) = pulling
  /\ modelStatus (ui c) <> ready
  /\ log c
     = [toast_info (js "Pulling fast-1b... This may take a few minutes.");
        invoke (pullOllamaModel (js "fast-1b"));
        invoke (updateSetting_ai_selected_model (Some (js "fast-1b")));
        toast_error (js "Failed to select model")]
  /\ pool c = [].
Proof. vm_compute. repeat split; discriminate. Qed.

(** The same handler, followed as a history of the component: the pull is
    clicked, the backend call returns success, the settings write resolves. *)
Lemma pull_success_as_a_history (s : State) (modelId : jsstring) :
  let c :=
    steps (start s)
      [OnModelPull modelId;
       Settle 0 (answer_unit (resolved (ok tt)));
       Settle 0 (answer_setting (resolved tt))] in
  (ui c, log c) = exec obliging quiet (handleModelPull modelId) s
  /\ pool c = [].
Proof. split; reflexivity. Qed.

(** When the settings write is rejected instead, nothing is selected: an
    error notification is all that happens. *)
Lemma pull_success_but_write_rejected
  (oracle : forall R, command R -> settled R)
  (env : forall R, command R -> State -> State)
  (s : State) (modelId : jsstring) :
  oracle _ (pullOllamaModel modelId) = resolved (ok tt) ->
  oracle _ (updateSetting_ai_selected_model (Some modelId)) = rejected ->
  exec oracle env (handleModelPull modelId) s
  = (env _ (updateSetting_ai_selected_model (Some modelId))
       (env _ (pullOllamaModel modelId) (setModelStatus pulling s)),
     [toast_info
        (js "Pulling " ++ modelId ++ js "... This may take a few minutes.");
      invoke (pullOllamaModel modelId);
      invoke (updateSetting_ai_selected_model (Some modelId));
      toast_error (js "Failed to select model")]).
Proof.
  intros P U. unfold handleModelPull, handleModelSelect, updateSetting.
  cbn [exec]. rewrite P. cbn [exec]. rewrite U. reflexivity.
Qed.

End PullOutcomeFacts.

(* ================================================================== *)
(** ** Deleting a model *)
(* ================================================================== *)

Module DeleteFacts.
Import AiModelSelector JsFacts Outside.

Section Handler.
Variable oracle : forall R, command R -> settled R.
Variable env : forall R, command R -> State -> State.
Variable confirm : jsstring -> bool.
Variable s : State.
Variable modelId : jsstring.

(** Without confirmation nothing is done at all. *)
Lemma delete_needs_confirmation :
  confirm (js "Delete " ++ modelId ++ js "? This will remove it from Ollama.")
  = false ->
  exec oracle env (handleModelDelete confirm (selectedModel s) modelId) s
  = (s, []).
Proof. intros C. unfold handleModelDelete. rewrite C. reflexivity. Qed.

End Handler.

Section Selected.
Variable oracle : forall R, command R -> settled R.
Variable env : forall R, command R -> State -> State.
Variable confirm : jsstring -> bool.
Variable s : State.
Variable selected modelId : jsstring.


End Selected.



(** The same handler, followed as a history of the component. *)
Lemma delete_as_a_history (s : State) (modelId : jsstring) :
  selectedModel s = modelId ->
  let c :=
    steps (start s)
      [OnModelDelete modelId true;
       Settle 0 (answer_unit (resolved (ok tt)));
       Settle 0 (answer_models (resolved (ok [])));
       Settle 0 (answer_strings (resolved (ok [])));
       Settle 0 (answer_setting (resolved tt))] in
  (ui c, log c)
  = exec obliging quiet
      (handleModelDelete (fun _ => true) (selectedModel s) modelId) s
  /\ pool c = [].
Proof.
  intros S. cbn [steps fold_left step ui start]. rewrite S.
  unfold handleModelDelete. rewrite !eqb_refl. split; reflexivity.
Qed.

End DeleteFacts.

(* ================================================================== *)
(** ** The status and the display text *)
(* ================================================================== *)

Module DisplayFacts.
Import AiModelSelector JsFacts Scenarios Display.

Lemma pulling_prefix (rest : jsstring) :
  startsWith (js "Pulling " ++ rest) (js "Pulling ") = true.
Proof. apply startsWith_prefix. exists rest. reflexivity. Qed.

(** The one place where the availability decides the stored status: the
    check made when the component is mounted. *)
Lemma availability_check_stores_the_status
  (oracle : forall R, command R -> settled R)
  (env : forall R, command R -> State -> State)
  (s : State) (selected : jsstring) :
  let available :=
    match oracle _ checkOllamaAvailable with
    | resolved (ok data) => data
    | _ => false
    end in
  let s' := fst (exec oracle env (checkOllama selected) s) in
  ollamaAvailable s' = available
  /\ modelStatus s'
     = if available then
         if truthy selected then ready else not_installed
       else ollama_unavailable.
Proof.
  unfold checkOllama. cbn [exec].
  destruct (oracle _ checkOllamaAvailable) as [[[]|message]|];
    cbn; try destruct (truthy selected); split; reflexivity.
Qed.

(** C1, as stated, fails: the availability check has found no backend, a
    progress event arrives, and status and display read [pulling]. *)
Lemma unavailable_backend_reads_pulling :
  ollamaAvailable (ui unavailable_pulling) = false
  /\ map_size (pullProgress (ui unavailable_pulling)) = 1%nat
  /\ modelStatus (ui unavailable_pulling) = pulling
  /\ modelStatus (ui unavailable_pulling) <> ollama_unavailable
  /\ getDisplayText (ui unavailable_pulling) = js "Pulling 50%"
  /\ getDisplayText (ui unavailable_pulling) <> js "Ollama Not Running".
Proof. vm_compute. repeat split; discriminate. Qed.

(** C1, amended. The display text is a priority chain with the progress
    first: when the progress map has an entry the text reads "Pulling ...",
    whatever the availability and the stored status; otherwise the text is
    that of the stored status. The stored status is what the last handler
    has set: a progress event adds its entry and stores [pulling] without
    regard to the availability. *)
Theorem display_puts_progress_first :
  (forall s : State, pullProgress s <> [] ->
     startsWith (getDisplayText s) (js "Pulling ") = true
     /\ forall status available,
          getDisplayText (setModelStatus status (setOllamaAvailable available s))
          = getDisplayText s)
  /\ (forall s : State, pullProgress s = [] ->
        getDisplayText s =
        match modelStatus s with
        | ollama_unavailable => js "Ollama Not Running"
        | pulling => js "Pulling model..."
        | error => js "Error"
        | not_installed => js "No Model - Pull Required"
        | ready =>
            match selectedModel s with
            | [] => js "No Model Selected"
            | model => model
            end
        end)
  /\ (forall (s : State) (progress : PullProgress),
        let s' := fst (fst (run (on_pull_progress progress) s)) in
        modelStatus s' = pulling
        /\ ollamaAvailable s' = ollamaAvailable s
        /\ map_get (model_id progress) (pullProgress s') = Some progress).
Proof.
  split; [|split].
  - intros s N. unfold getDisplayText.
    destruct (pullProgress s) as [|[k progress] rest] eqn:E; [congruence|].
    cbn [map_values List.map snd pullProgress setModelStatus setOllamaAvailable].
    rewrite E. cbn [map_values List.map snd].
    split; [|reflexivity].
    destruct (gt (percentage progress) 0); apply pulling_prefix.
  - intros s E. unfold getDisplayText. rewrite E. cbn [map_values List.map].
    destruct (modelStatus s); try reflexivity.
    unfold or_else. destruct (selectedModel s); reflexivity.
  - intros s progress. cbn. repeat split. apply map_get_set_eq.
Qed.

Lemma display_puts_progress_first_witness :
  startsWith (getDisplayText (ui unavailable_pulling)) (js "Pulling ") = true
  /\ getDisplayText (ui unavailable) = js "Ollama Not Running".
Proof.
  destruct display_puts_progress_first as (A & B & _). split.
  - apply (A (ui unavailable_pulling)). vm_compute. discriminate.
  - rewrite (B (ui unavailable)); reflexivity.
Defined.

(** *** The percentage of an entry *)

Lemma nondecreasing_rounded (l : list number) :
  nondecreasingQ l -> nondecreasing (List.map Math_round l).
Proof.
  induction l as [|x [|y l] IH]; simpl; auto.
  intros [L H]. split; [apply Math_round_monotone; exact L | apply IH; exact H].
Qed.

(** After a progress event the displays read the percentage of that event. *)
Lemma readings_are_the_events (modelId : jsstring) (events : list PullProgress) :
  Forall (fun progress => model_id progress = modelId) events ->
  forall c : config State,
    readings modelId c events
    = List.map (fun progress => Math_round (percentage progress)) events.
Proof.
  induction 1 as [|progress events M _ IH]; intros c; [reflexivity|].
  cbn [readings List.map]. rewrite IH.
  unfold shown_percentage. cbn -[map_get map_set]. rewrite M.
  rewrite map_get_set_eq. reflexivity.
Qed.

(** C8, as stated, fails: the percentages read for ["fast-1b"] after events
    carrying 50, 30 and 150 are 50, 30 and 150. *)
Lemma shown_percentage_drops_and_exceeds_100 :
  let events :=
    [downloading fast_1b 50; downloading fast_1b 30; downloading fast_1b 150] in
  let c := steps (start (initial None)) (List.map PullProgressEvent events) in
  Forall (fun progress => model_id progress = fast_1b) events
  /\ readings fast_1b (start (initial None)) events = [50; 30; 150]%Z
  /\ ~ nondecreasing (readings fast_1b (start (initial None)) events)
  /\ ~ Forall (fun n => (n <= 100)%Z)
         (readings fast_1b (start (initial None)) events)
  /\ getDisplayText (ui c) = js "Pulling 150%".
Proof.
  cbv zeta. split; [repeat constructor|]. split; [reflexivity|].
  split; [|split].
  - vm_compute. intros [H _]. apply H. reflexivity.
  - intros H. inversion H as [|? ? _ Ha]. inversion Ha as [|? ? _ Hb].
    inversion Hb as [|? ? Hc _]. vm_compute in Hc. apply Hc. reflexivity.
  - reflexivity.
Qed.

(** C8, amended. For a sequence of progress events of one model that has
    not completed, the displays have a percentage to read after every event;
    the percentages read never decrease provided those of the events do not
    decrease, and none is above 100 provided no event carries more than 100.
    (For every event, the width of the bar of the dropdown is at most 100.) *)
Theorem shown_percentage_follows_the_events
  (c : config State) (modelId : jsstring) (events : list PullProgress) :
  Forall (fun progress => model_id progress = modelId) events ->
  List.length (readings modelId c events) = List.length events
  /\ (nondecreasingQ (List.map percentage events) ->
      nondecreasing (readings modelId c events))
  /\ (Forall (fun progress => (percentage progress <= 100)%Q) events ->
      Forall (fun n => (n <= 100)%Z) (readings modelId c events))
  /\ (forall progress,
        (AiModelDropdown.width (AiModelDropdown.render_progress progress)
         <= 100)%Q).
Proof.
  intros M. rewrite (readings_are_the_events M c).
  split; [apply length_map|]. split; [|split].
  - intros H. rewrite <- (map_map percentage Math_round).
    apply nondecreasing_rounded; exact H.
  - intros H. apply Forall_map. revert H. apply Forall_impl.
    intros progress. apply Math_round_le_100.
  - intros progress. apply Math_min_le_l.
Qed.

Lemma shown_percentage_follows_the_events_witness :
  let events :=
    [downloading fast_1b 30; downloading fast_1b 50; downloading fast_1b 100] in
  readings fast_1b (start (initial None)) events = [30; 50; 100]%Z
  /\ nondecreasing (readings fast_1b (start (initial None)) events)
  /\ Forall (fun n => (n <= 100)%Z)
       (readings fast_1b (start (initial None)) events).
Proof.
  intros events.
  destruct (@shown_percentage_follows_the_events (start (initial None))
              fast_1b events) as (_ & N & B & _).
  - repeat constructor.
  - split; [reflexivity|]. split.
    + apply N. vm_compute. repeat split; discriminate.
    + apply B. repeat constructor; vm_compute; discriminate.
Defined.

End DisplayFacts.

(* ================================================================== *)
(** ** Which histories remove the entry of a model *)
(* ================================================================== *)

Module FrameFacts.
Import AiModelSelector JsFacts Outside Frame.

Section Entry.
Variable modelId : jsstring.

Lemma has_entry_map_set (s : State) (k : jsstring) (v : PullProgress) :
  has_entry modelId s = true ->
  has_entry modelId (setPullProgress (map_set k v) s) = true.
Proof.
  unfold has_entry. cbn [pullProgress setPullProgress].
  destruct (eqb k modelId) eqn:E.
  - apply eqb_eq in E; subst k. rewrite map_get_set_eq. reflexivity.
  - apply eqb_neq in E. rewrite (map_get_set_ne _ v E). trivial.
Qed.

Lemma has_entry_map_delete (s : State) (k : jsstring) :
  k <> modelId ->
  has_entry modelId (setPullProgress (map_delete k) s) = has_entry modelId s.
Proof.
  intros N. unfold has_entry. cbn [pullProgress setPullProgress].
  rewrite (map_get_delete_ne _ N). reflexivity.
Qed.

Lemma keeps_seq (p q : prog State) :
  keeps modelId p -> keeps modelId q -> keeps modelId (seq p q).
Proof.
  intros P Q. induction p as [|f k IH|e k IH|R c k IH|p1 IH1 k IH];
    cbn [seq keeps] in *.
  - exact Q.
  - destruct P as [F K]. split; [exact F | apply IH; exact K].
  - apply IH; exact P.
  - intros r N. apply IH. apply P; exact N.
  - destruct P as [P1 K]. split; [exact P1 | apply IH; exact K].
Qed.

(** The setters of the other cells do not touch the progress map. *)
Local Ltac other_cell :=
  repeat match goal with
    | |- _ /\ _ => split
    | |- forall _, _ => intro
    | |- has_entry _ _ = true => assumption
    | |- True => exact I
    end.

Lemma keeps_loadModels : keeps modelId loadModels.
Proof.
  unfold loadModels. cbn [keeps]. intros [[models|message]|] _;
    cbn [keeps]; try exact I.
  - split; [intros s H; exact H|].
    intros [[names|message]|] _; cbn [keeps]; other_cell.
  - intros [[names|message']|] _; cbn [keeps]; other_cell.
Qed.

Lemma keeps_checkOllama (selected : jsstring) :
  keeps modelId (checkOllama selected).
Proof.
  unfold checkOllama. cbn [keeps]. intros [[[]|message]|] _;
    cbn [keeps negb]; try destruct (truthy selected); cbn [keeps]; other_cell.
Qed.

Lemma keeps_loadRecommendation : keeps modelId loadRecommendation.
Proof.
  unfold loadRecommendation. cbn [keeps]. intros [[data|message]|] _;
    try destruct (truthy data); cbn [keeps]; other_cell.
Qed.

Lemma keeps_handleModelSelect (m : jsstring) :
  keeps modelId (handleModelSelect m).
Proof.
  unfold handleModelSelect, updateSetting. cbn [keeps].
  intros [[]|] _; cbn [keeps]; other_cell.
Qed.

Lemma keeps_handleModelPull (m : jsstring) :
  keeps modelId (handleModelPull m).
Proof.
  unfold handleModelPull. cbn [keeps]. split; [intros s H; exact H|].
  intros [[[]|message]|] N; cbn [pull_failure_of succeeded] in N.
  - apply keeps_handleModelSelect.
  - cbn [keeps]. split; [intros s H; exact H|]. split; [|exact I].
    intros s H. rewrite has_entry_map_delete; [exact H|].
    intros E; apply N; split; [exact E | reflexivity].
  - cbn [keeps]. split; [intros s H; exact H|]. split; [|exact I].
    intros s H. rewrite has_entry_map_delete; [exact H|].
    intros E; apply N; split; [exact E | reflexivity].
Qed.

Lemma keeps_handleModelDelete (confirm : jsstring -> bool)
  (selected m : jsstring) :
  keeps modelId (handleModelDelete confirm selected m).
Proof.
  unfold handleModelDelete. destruct (negb _); [exact I|].
  cbn [keeps]. intros [[[]|message]|] _; cbn [keeps]; try exact I.
  apply keeps_seq; [apply keeps_loadModels|].
  destruct (eqb selected m); [|exact I].
  unfold updateSetting. cbn [keeps]. intros [[]|] _; cbn [keeps]; other_cell.
Qed.

Lemma keeps_on_pull_progress (progress : PullProgress) :
  keeps modelId (on_pull_progress progress).
Proof.
  unfold on_pull_progress. cbn [keeps].
  split; [intros s H; apply has_entry_map_set; exact H|]. other_cell.
Qed.

Lemma keeps_on_pull_complete (m : jsstring) :
  m <> modelId -> keeps modelId (on_pull_complete m).
Proof.
  intros N. unfold on_pull_complete. cbn [keeps].
  split; [intros s H; rewrite has_entry_map_delete; assumption|].
  split; [apply keeps_loadModels|]. other_cell.
Qed.

Lemma keeps_mount (selected : jsstring) : keeps modelId (mount selected).
Proof.
  unfold mount. cbn [keeps].
  split; [apply keeps_loadModels|].
  split; [apply keeps_checkOllama|].
  split; [apply keeps_loadRecommendation | exact I].
Qed.

(** A turn of a program that keeps the entry keeps it, and so will the
    functions it leaves suspended. *)
Lemma run_keeps (p : prog State) :
  keeps modelId p ->
  forall s, has_entry modelId s = true ->
    has_entry modelId (fst (fst (run p s))) = true
    /\ Forall (task_keeps modelId) (snd (run p s)).
Proof.
  induction p as [|f k IH|e k IH|R c k IH|p1 IH1 k IH];
    cbn [keeps run]; intros K s H.
  - split; [exact H | constructor].
  - destruct K as [F K]. apply IH; [exact K | apply F; exact H].
  - destruct (IH K s H) as [H' T].
    destruct (run k s) as [[s' es] ts]. split; assumption.
  - split; [exact H|]. constructor; [exact K | constructor].
  - destruct K as [K1 K].
    destruct (IH1 K1 s H) as [H1 T1].
    destruct (run p1 s) as [[s1 es1] ts1]. cbn [fst snd] in *.
    destruct (IH K s1 H1) as [H2 T2].
    destruct (run k s1) as [[s2 es2] ts2]. cbn [fst snd] in *.
    split; [exact H2 | apply Forall_app; split; assumption].
Qed.

Lemma take_out_Forall {A : Type} (P : A -> Prop) (n : nat) :
  forall (l : list A) (x : A) (rest : list A),
    take_out n l = Some (x, rest) -> Forall P l -> P x /\ Forall P rest.
Proof.
  induction n as [|n IH]; intros [|y l] x rest E F; cbn in E;
    try discriminate; inversion F as [|? ? Py Fl]; subst.
  - inversion E; subst. split; assumption.
  - destruct (take_out n l) as [[z r]|] eqn:T; [|discriminate].
    inversion E; subst. destruct (IH l x r T Fl) as [Px Fr].
    split; [exact Px | constructor; assumption].
Qed.

Lemma fire_keeps (p : prog State) (c : config State) :
  keeps modelId p -> entry_is_safe modelId c -> entry_is_safe modelId (fire p c).
Proof.
  intros K [H T]. unfold fire, entry_is_safe.
  destruct (@run_keeps p K (ui c) H) as [H' T'].
  destruct (run p (ui c)) as [[s es] ts]. cbn [fst snd ui pool] in *.
  split; [exact H' | apply Forall_app; split; assumption].
Qed.

Lemma step_keeps (c : config State) (i : input) :
  allowed modelId c i -> entry_is_safe modelId c ->
  entry_is_safe modelId (step c i).
Proof.
  intros A S. destruct i as [|progress|m| |m|m|m confirmed|n a];
    cbn [step allowed] in *.
  - apply fire_keeps; [apply keeps_mount | exact S].
  - apply fire_keeps; [apply keeps_on_pull_progress | exact S].
  - apply fire_keeps; [apply keeps_on_pull_complete; exact A | exact S].
  - apply fire_keeps; [|exact S]. cbn [keeps]. split; [|exact I].
    intros s H; exact H.
  - apply fire_keeps; [apply keeps_handleModelSelect | exact S].
  - apply fire_keeps; [apply keeps_handleModelPull | exact S].
  - apply fire_keeps; [apply keeps_handleModelDelete | exact S].
  - unfold settle.
    destruct (take_out n (pool c)) as [[[R cmd k] rest]|] eqn:T; [|exact S].
    destruct (accept cmd a) as [r|]; [|exact S].
    destruct S as [H F].
    destruct (@take_out_Forall _ (task_keeps modelId) n (pool c) _ _ T F)
      as [K F'].
    apply fire_keeps; [apply K; exact A | split; assumption].
Qed.

Lemma steps_keep (l : list input) :
  forall c : config State,
    all_allowed modelId c l -> entry_is_safe modelId c ->
    entry_is_safe modelId (steps c l).
Proof.
  induction l as [|i l IH]; intros c A S; [exact S|].
  destruct A as [A1 A]. cbn [steps fold_left].
  apply (IH (step c i) A). apply step_keeps; assumption.
Qed.

End Entry.
End FrameFacts.

(* ================================================================== *)
(** ** The completion event *)
(* ================================================================== *)

Module CompletionFacts.
Import AiModelSelector JsFacts Outside Scenarios Display Frame FrameFacts.

(** What the listener of the completion event does, in every state. *)
Lemma on_pull_complete_turn (s : State) (modelId : jsstring) :
  let turn := run (on_pull_complete modelId) s in
  pullProgress (fst (fst turn)) = map_delete modelId (pullProgress s)
  /\ map_get modelId (pullProgress (fst (fst turn))) = None
  /\ modelStatus (fst (fst turn)) = ready
  /\ snd (fst turn)
     = [invoke getAvailableAiModels;
        toast_success (modelId ++ js " downloaded successfully!")]
  /\ refreshes (snd (fst turn)) = 1%nat.
Proof.
  cbn -[map_delete map_get]. rewrite map_get_delete_eq. repeat split.
Qed.

(** When the entry is already gone, the completion event leaves the
    progress map as it is; it still reloads the catalogs, shows its
    notification and stores [ready]. *)
Lemma on_pull_complete_when_cleared (s : State) (modelId : jsstring) :
  map_get modelId (pullProgress s) = None ->
  run (on_pull_complete modelId) s
  = (setModelStatus ready s,
     [invoke getAvailableAiModels;
      toast_success (modelId ++ js " downloaded successfully!")],
     snd (run loadModels s)).
Proof.
  intros H. cbn -[map_delete]. unfold setPullProgress.
  cbn -[map_delete]. rewrite (map_delete_absent _ _ H). reflexivity.
Qed.

(** C9. The completion event of a model removes the entry of that model
    and leaves the entry of every other model as it is. In particular the
    entry of a model whose pull has returned success survives the completion
    event of another model; more generally it survives every history that
    contains neither its own completion event nor the failure of its own
    pull, either of which removes it. *)
Theorem completion_clears_only_its_own_entry
  (s : State) (modelId other : jsstring) :
  other <> modelId ->
  map_get modelId (pullProgress (fst (fst (run (on_pull_complete other) s))))
  = map_get modelId (pullProgress s)
  /\ map_get modelId
       (pullProgress
          (ui (steps (start s)
                 [OnModelPull modelId;
                  Settle 0 (answer_unit (resolved (ok tt)));
                  PullCompleteEvent other])))
     = map_get modelId (pullProgress s)
  /\ (forall l : list input,
        has_entry modelId s = true ->
        all_allowed modelId (start s) l ->
        has_entry modelId (ui (steps (start s) l)) = true)
  /\ map_get modelId
       (pullProgress (fst (fst (run (on_pull_complete modelId) s))))
     = None
  /\ (forall failure : settled (result unit),
        succeeded failure = false ->
        map_get modelId
          (pullProgress
             (ui (steps (start s)
                    [OnModelPull modelId; Settle 0 (answer_unit failure)])))
        = None).
Proof.
  intros N. split; [|split; [|split; [|split]]].
  - cbn -[map_delete map_get]. apply map_get_delete_ne; exact N.
  - cbn -[map_delete map_get]. apply map_get_delete_ne; exact N.
  - intros l H A.
    apply (@steps_keep modelId l (start s) A). split; [exact H | constructor].
  - cbn -[map_delete map_get]. apply map_get_delete_eq.
  - intros [[[]|message]|] F; [discriminate F | |];
      cbn -[map_delete map_get]; apply map_get_delete_eq.
Qed.

Lemma completion_clears_only_its_own_entry_witness :
  let s :=
    setPullProgress
      (fun _ => [(js "fast-1b", downloading (js "fast-1b") 40);
                 (js "big-7b", downloading (js "big-7b") 99)])
      (initial None) in
  map_get (js "fast-1b")
    (pullProgress
       (ui (steps (start s)
              [OnModelPull (js "fast-1b");
               Settle 0 (answer_unit (resolved (ok tt)));
               PullCompleteEvent (js "big-7b")])))
  = Some (downloading (js "fast-1b") 40)
  /\ has_entry (js "fast-1b")
       (ui (steps (start s)
              [OnModelPull (js "fast-1b");
               PullProgressEvent (downloading (js "fast-1b") 60);
               PullCompleteEvent (js "big-7b");
               Settle 0 (answer_unit (resolved (ok tt)));
               OnModelDelete (js "big-7b") true;
               Settle 1 (answer_setting (resolved tt))]))
     = true
  /\ map_get (js "fast-1b")
       (pullProgress
          (ui (steps (start s)
                 [OnModelPull (js "fast-1b");
                  Settle 0 (answer_unit rejected)])))
     = None.
Proof.
  intros s.
  destruct (@completion_clears_only_its_own_entry s (js "fast-1b") (js "big-7b"))
    as (_ & E & K & _ & F); [discriminate|].
  split; [rewrite E; reflexivity|]. split.
  - apply K; [reflexivity|].
    cbn. intuition discriminate.
  - apply F. reflexivity.
Defined.

(** C3, as stated, fails. When the backend call returns first, the entry is
    still there and no catalog has been reloaded; and when the completion
    event has arrived first and cleared the entry, the return of the backend
    call is not a no-op: it writes the selection. *)
Lemma backend_result_does_not_clear_progress :
  map_get fast_1b (pullProgress (ui pull_returned_first))
  = Some (downloading fast_1b 50)
  /\ refreshes (log pull_returned_first) = 0%nat
  /\ map_get fast_1b (pullProgress (ui completion_arrived_first)) = None
  /\ skipn (List.length (log completion_arrived_first))
       (log (step completion_arrived_first
               (Settle 0 (answer_unit (resolved (ok tt))))))
     = [invoke (updateSetting_ai_selected_model (Some fast_1b))].
Proof. vm_compute. repeat split. Qed.

(** C3, amended. The return of the backend call and the completion event
    may come in either order (the event before the return, after it, or
    between the return and the answer to the settings write it starts), and
    in each it is the completion event that removes the entry of the model
    and reloads the catalogs; the success of the backend call does neither,
    it goes on to select the model. All orders end in the same state, with
    the entry removed and the catalogs reloaded once; in that state the
    model is the selection when the settings write has resolved, and the
    selection is the former one when the write was rejected. *)
Theorem completion_event_clears_progress_in_either_order
  (s : State) (modelId : jsstring) (written : settled unit) :
  let returned := Settle 0 (answer_unit (resolved (ok tt))) in
  let result_first :=
    steps (start s)
      [OnModelPull modelId; returned; Settle 0 (answer_setting written)] in
  let then_event := step result_first (PullCompleteEvent modelId) in
  let event_between :=
    steps (start s)
      [OnModelPull modelId; returned; PullCompleteEvent modelId;
       Settle 0 (answer_setting written)] in
  let event_first :=
    steps (start s) [OnModelPull modelId; PullCompleteEvent modelId] in
  let then_result :=
    steps event_first [returned; Settle 1 (answer_setting written)] in
  (pullProgress (ui result_first) = pullProgress s
   /\ refreshes (log result_first) = 0%nat)
  /\ (map_get modelId (pullProgress (ui then_event)) = None
      /\ refreshes (log then_event) = 1%nat)
  /\ (map_get modelId (pullProgress (ui event_first)) = None
      /\ refreshes (log event_first) = 1%nat)
  /\ (pullProgress (ui then_result) = pullProgress (ui event_first)
      /\ refreshes (log then_result) = 1%nat)
  /\ ui then_result = ui then_event
  /\ ui event_between = ui then_event
  /\ refreshes (log event_between) = 1%nat
  /\ ai_selected_model (ui then_event)
     = match written with
       | resolved _ => Some modelId
       | rejected => ai_selected_model s
       end.
Proof.
  destruct written as [[]|]; cbn -[map_delete map_get];
    rewrite map_get_delete_eq; repeat split.
Qed.

End CompletionFacts.

(* ================================================================== *)
(** ** Invariants along the histories of a component *)
(* ================================================================== *)

Module InvariantFacts.
Import Invariants.

Section WithState.
Variable St : Type.
Variable P : St -> Prop.
Variable Q : effect -> Prop.

Lemma safe_seq (p q : prog St) :
  safe P Q p -> safe P Q q -> safe P Q (seq p q).
Proof.
  intros Hp Hq. induction p as [|f k IH|e k IH|R c k IH|p1 IH1 k IH];
    cbn [seq safe] in *.
  - exact Hq.
  - destruct Hp as [F K]. split; [exact F | apply IH; exact K].
  - destruct Hp as [E K]. split; [exact E | apply IH; exact K].
  - destruct Hp as [E K]. split; [exact E | intros r; apply IH; apply K].
  - destruct Hp as [P1 K]. split; [exact P1 | apply IH; exact K].
Qed.

(** One turn of a safe program. *)
Lemma run_safe (p : prog St) :
  safe P Q p ->
  forall s, P s ->
    P (fst (fst (run p s)))
    /\ Forall Q (snd (fst (run p s)))
    /\ Forall (task_safe P Q) (snd (run p s)).
Proof.
  induction p as [|f k IH|e k IH|R c k IH|p1 IH1 k IH];
    cbn [safe run]; intros S s H.
  - repeat split; [exact H | constructor | constructor].
  - destruct S as [F K]. apply IH; [exact K | apply F; exact H].
  - destruct S as [E K]. destruct (IH K s H) as (H' & L & T).
    destruct (run k s) as [[s' es] ts]. cbn [fst snd] in *.
    repeat split; [exact H' | constructor; assumption | exact T].
  - destruct S as [E K]. cbn [fst snd].
    repeat split; [exact H | constructor; [exact E | constructor] |].
    constructor; [exact K | constructor].
  - destruct S as [S1 K].
    destruct (IH1 S1 s H) as (H1 & L1 & T1).
    destruct (run p1 s) as [[s1 es1] ts1]. cbn [fst snd] in *.
    destruct (IH K s1 H1) as (H2 & L2 & T2).
    destruct (run k s1) as [[s2 es2] ts2]. cbn [fst snd] in *.
    repeat split; [exact H2 | |]; apply Forall_app; split; assumption.
Qed.

Lemma fire_safe (p : prog St) (c : config St) :
  safe P Q p -> config_safe P Q c -> config_safe P Q (fire p c).
Proof.
  intros S (H & L & T). unfold fire, config_safe.
  destruct (@run_safe p S (ui c) H) as (H' & L' & T').
  destruct (run p (ui c)) as [[s es] ts]. cbn [fst snd ui pool log] in *.
  repeat split; [exact H' | |]; apply Forall_app; split; assumption.
Qed.

(** An answer resumes a function that was safe when it was suspended. *)
Lemma settle_safe (n : nat) (a : answer) (c : config St) :
  config_safe P Q c -> config_safe P Q (settle n a c).
Proof.
  intros (H & L & T). unfold settle.
  destruct (take_out n (pool c)) as [[[R cmd k] rest]|] eqn:E;
    [|repeat split; assumption].
  destruct (accept cmd a) as [r|]; [|repeat split; assumption].
  destruct (@FrameFacts.take_out_Forall _ (task_safe P Q) n (pool c) _ _ E T)
    as [K T'].
  apply fire_safe; [apply K | repeat split; assumption].
Qed.

End WithState.
End InvariantFacts.

(* ================================================================== *)
(** ** Invariants of the controller *)
(* ================================================================== *)

Module SelectorInvariants.
Import AiModelSelector AiModelSelectorView Invariants InvariantFacts JsFacts.

Lemma step_handler (c : config State) (i : input) (p : prog State) :
  handler c i = Some p -> step c i = fire p c.
Proof.
  destruct i; cbn [handler step]; intros E; inversion E; reflexivity.
Qed.

Section Along.
Variable P : State -> Prop.
Variable Q : effect -> Prop.

Lemma step_safe (c : config State) (i : input) :
  (forall p, handler c i = Some p -> safe P Q p) ->
  config_safe P Q c -> config_safe P Q (step c i).
Proof.
  intros H S. destruct (handler c i) as [p|] eqn:E.
  - rewrite (step_handler c i E). apply fire_safe; [apply H; reflexivity | exact S].
  - destruct i; try discriminate E. cbn [step]. apply settle_safe; exact S.
Qed.

(** A history all of whose turns are safe keeps the invariant. *)
Lemma steps_safe (l : list input) :
  forall c : config State,
    (forall c' i p, In i l -> handler c' i = Some p -> safe P Q p) ->
    config_safe P Q c -> config_safe P Q (steps c l).
Proof.
  induction l as [|i l IH]; intros c H S; [exact S|].
  cbn [steps fold_left]. apply IH.
  - intros c' j p I. apply H. right; exact I.
  - apply step_safe; [|exact S]. intros p. apply H. left; reflexivity.
Qed.

End Along.

Ltac handlers :=
  unfold mount, on_pull_progress, on_pull_complete, handleModelSelect,
    handleModelPull, handleModelDelete, updateSetting, loadModels,
    checkOllama, loadRecommendation.

(** Walk through the branches of a handler. *)
Ltac walk :=
  cbv zeta;
  repeat match goal with
    | |- safe _ _ (match ?x with _ => _ end) => destruct x
    | |- safe _ _ (match ?x with _ => _ end _) => destruct x
    | |- safe _ _ (if ?b then _ else _) => destruct b
    | |- safe _ _ (seq _ _) => apply safe_seq
    | |- safe _ _ _ => progress cbn [safe]
    | |- safe _ _ _ => progress handlers
    | |- _ /\ _ => split
    | |- forall _, _ => intro
    | |- True => exact I
    end.

(** *** The keys of the progress map *)

Lemma Forall_map_set (k : jsstring) (v : PullProgress) (m : JsMap PullProgress) :
  model_id v = k ->
  Forall (fun entry => model_id (snd entry) = fst entry) m ->
  Forall (fun entry => model_id (snd entry) = fst entry) (map_set k v m).
Proof.
  intros E. induction m as [|[k' v'] m IH]; intros F; cbn [map_set].
  - constructor; [exact E | constructor].
  - inversion F as [|x l F1 F2]; subst x l. destruct (eqb k' k) eqn:K.
    + apply eqb_eq in K; subst k'. constructor; [exact E | exact F2].
    + constructor; [exact F1 | apply IH; exact F2].
Qed.

Lemma well_keyed_set (s : State) (progress : PullProgress) :
  well_keyed s ->
  well_keyed (setPullProgress (map_set (model_id progress) progress) s).
Proof.
  intros [N F]. split; cbn [pullProgress setPullProgress].
  - apply map_set_keys_NoDup; exact N.
  - apply Forall_map_set; [reflexivity | exact F].
Qed.

Lemma well_keyed_delete (s : State) (modelId : jsstring) :
  well_keyed s -> well_keyed (setPullProgress (map_delete modelId) s).
Proof.
  intros [N F]. split; cbn [pullProgress setPullProgress].
  - apply map_delete_keys_NoDup; exact N.
  - unfold map_delete. rewrite Forall_forall in *.
    intros e I. apply filter_In in I. apply F. tauto.
Qed.

Lemma well_keyed_handlers (c : config State) (i : input) (p : prog State) :
  handler c i = Some p -> safe well_keyed (fun _ => True) p.
Proof.
  destruct i; cbn [handler]; intros E; inversion E; subst; clear E;
    handlers; walk;
    try assumption;
    try (apply well_keyed_set; assumption);
    try (apply well_keyed_delete; assumption).
Qed.

Lemma keyed_lookup (m : JsMap PullProgress) (modelId : jsstring)
  (progress : PullProgress) :
  Forall (fun entry => model_id (snd entry) = fst entry) m ->
  map_get modelId m = Some progress -> model_id progress = modelId.
Proof.
  induction m as [|[k v] m IH]; cbn [map_get]; intros F E; [discriminate|].
  inversion F as [|x l F1 F2]; subst x l. destruct (eqb k modelId) eqn:K.
  - apply eqb_eq in K. inversion E; subst. exact F1.
  - apply IH; assumption.
Qed.

(** X1. Along every history of the controller the progress map stays well
    keyed: no model has two entries, and the entry found for a model is one
    that carries the id of that model. *)
Theorem progress_map_stays_well_keyed (s : State) (l : list input) :
  well_keyed s ->
  well_keyed (ui (steps (start s) l))
  /\ map_size (pullProgress (ui (steps (start s) l)))
     = List.length (nodup (list_eq_dec N.eq_dec)
                      (map_keys (pullProgress (ui (steps (start s) l)))))
  /\ forall modelId progress,
       AiModelDropdown.getModelProgress
         (pullProgress (ui (steps (start s) l))) modelId = Some progress ->
       model_id progress = modelId.
Proof.
  intros W.
  assert (S : config_safe well_keyed (fun _ => True) (steps (start s) l)).
  { apply steps_safe.
    - intros c i p _. apply well_keyed_handlers.
    - repeat split; [apply W | apply W | constructor | constructor]. }
  destruct S as ([N F] & _). split; [split; assumption|]. split.
  - rewrite (nodup_fixed_point _ N). unfold map_size, map_keys.
    symmetry; apply length_map.
  - intros modelId progress. apply keyed_lookup; exact F.
Qed.

Lemma progress_map_stays_well_keyed_witness :
  let l :=
    [Mount;
     OnModelPull (js "fast-1b");
     PullProgressEvent (Scenarios.downloading (js "fast-1b") 10);
     PullProgressEvent (Scenarios.downloading (js "big-7b") 5);
     PullProgressEvent (Scenarios.downloading (js "fast-1b") 20)] in
  map_size (pullProgress (ui (steps (start (initial None)) l))) = 2%nat
  /\ well_keyed (ui (steps (start (initial None)) l)).
Proof.
  intros l.
  destruct (@progress_map_stays_well_keyed (initial None) l) as (W & _).
  - split; constructor.
  - split; [reflexivity | exact W].
Defined.

Lemma nothing_written (Q : effect -> bool) (l : list effect) :
  Forall (fun e => Q e = false) l -> filter Q l = [].
Proof.
  induction 1 as [|e l E _ IH]; cbn [filter]; [reflexivity|].
  rewrite E. exact IH.
Qed.

(** X2. The events and answers of the backend never select a model: along a
    history made of progress events, completion events and answers to the
    calls these have started, the selection stays as it was and nothing is
    written to the settings store. *)
Theorem backend_inputs_never_select (s : State) (l : list input) :
  Forall from_backend l ->
  ai_selected_model (ui (steps (start s) l)) = ai_selected_model s
  /\ filter is_selection_write (log (steps (start s) l)) = [].
Proof.
  intros B.
  assert (S : config_safe (fun s' => ai_selected_model s' = ai_selected_model s)
                (fun e => is_selection_write e = false) (steps (start s) l)).
  { apply steps_safe.
    - intros c i p I. rewrite Forall_forall in B. specialize (B i I).
      destruct i; cbn [from_backend handler] in *; try contradiction;
        intros E; inversion E; subst; clear E;
        handlers; walk; solve [assumption | reflexivity].
    - repeat split; constructor. }
  destruct S as (E & L & _). split; [exact E|].
  apply nothing_written; exact L.
Qed.

Lemma backend_inputs_never_select_witness :
  let l :=
    [PullProgressEvent (Scenarios.downloading (js "fast-1b") 99);
     PullCompleteEvent (js "fast-1b");
     Settle 0 (answer_models (resolved (ok [])));
     Settle 0 (answer_strings (resolved (ok [js "fast-1b"])))] in
  ai_selected_model (ui (steps (start (initial None)) l)) = None
  /\ downloadedModels (ui (steps (start (initial None)) l)) = [js "fast-1b"].
Proof.
  intros l.
  destruct (@backend_inputs_never_select (initial None) l) as (E & _).
  - repeat constructor.
  - split; [exact E | reflexivity].
Defined.

(** X3. The availability of the backend is asked for by the mount effect
    alone: a history without a mount never calls [checkOllamaAvailable],
    whatever is clicked, whatever event arrives and whatever fails. *)
Theorem availability_is_asked_at_mount_only (s : State) (l : list input) :
  ~ In Mount l ->
  filter is_availability_check (log (steps (start s) l)) = [].
Proof.
  intros M.
  assert (S : config_safe (fun _ => True)
                (fun e => is_availability_check e = false)
                (steps (start s) l)).
  { apply steps_safe.
    - intros c i p I.
      destruct i; cbn [handler] in *;
        try (exfalso; apply M; exact I);
        intros E; inversion E; subst; clear E;
        handlers; walk; solve [exact I | reflexivity].
    - repeat split; constructor. }
  destruct S as (_ & L & _). apply nothing_written; exact L.
Qed.

Lemma availability_is_asked_at_mount_only_witness :
  let l :=
    [OnModelPull (js "fast-1b");
     Settle 0 (answer_unit (resolved (err (js "connection refused"))));
     OnModelPull (js "fast-1b")] in
  filter is_availability_check (log (steps (start (initial None)) l)) = []
  /\ modelStatus (ui (steps (start (initial None)) l)) = pulling.
Proof.
  intros l. split; [|reflexivity].
  apply (@availability_is_asked_at_mount_only (initial None) l).
  cbn. intuition discriminate.
Defined.

End SelectorInvariants.

(* ================================================================== *)
(** ** The other handlers of the controller *)
(* ================================================================== *)

Module SelectorFacts.
Import AiModelSelector JsFacts Outside Answers.

(** X4. [handleModelSelect] commits or changes nothing: when the settings
    write is rejected the state is left as the answer found it and the only
    thing shown is "Failed to select model"; when it resolves the model is
    selected, the status is [ready] and the dropdown is closed. *)
Theorem select_commits_or_changes_nothing
  (oracle : forall R, command R -> settled R)
  (env : forall R, command R -> State -> State)
  (s : State) (modelId : jsstring) :
  let write := updateSetting_ai_selected_model (Some modelId) in
  let out := exec oracle env (handleModelSelect modelId) s in
  (oracle _ write = rejected ->
   fst out = env _ write s
   /\ snd out = [invoke write; toast_error (js "Failed to select model")])
  /\ (oracle _ write <> rejected ->
      fst out
      = setShowDropdown false
          (setModelStatus ready (persist (Some modelId) (env _ write s)))
      /\ snd out
         = [invoke write; toast_success (js "Switched to " ++ modelId)]).
Proof.
  cbv zeta. unfold handleModelSelect, updateSetting. cbn [exec].
  destruct (oracle _ (updateSetting_ai_selected_model (Some modelId)))
    as [[]|]; cbn.
  - split; [discriminate|]. intros _; split; reflexivity.
  - split; [intros _; split; reflexivity | congruence].
Qed.

Lemma select_commits_or_changes_nothing_witness :
  let s := setShowDropdown true (initial (Some (js "big-7b"))) in
  exec refusing quiet (handleModelSelect (js "fast-1b")) s
  = (s, [invoke (updateSetting_ai_selected_model (Some (js "fast-1b")));
         toast_error (js "Failed to select model")]).
Proof.
  intros s.
  destruct (@select_commits_or_changes_nothing refusing quiet s
              (js "fast-1b")) as ((A & B) & _);
    [reflexivity|].
  cbv zeta in A, B.
  rewrite (surjective_pairing (exec _ _ _ _)). rewrite A, B. reflexivity.
Defined.

Section Delete.
Variable oracle : forall R, command R -> settled R.
Variable env : forall R, command R -> State -> State.
Variable confirm : jsstring -> bool.
Variable s : State.
Variable selected modelId : jsstring.

Hypothesis confirmed :
  confirm (js "Delete " ++ modelId ++ js "? This will remove it from Ollama.")
  = true.

(** X5. When the backend refuses to delete a model (an error result or a
    rejected promise), [handleModelDelete] leaves the state as the answer
    found it: it shows the message of the backend, or "Failed to delete
    model" when there is none, reloads no catalog and writes no selection. *)
Theorem failed_delete_changes_nothing :
  succeeded (oracle (deleteOllamaModel modelId)) = false ->
  exec oracle env (handleModelDelete confirm selected modelId) s
  = (env (deleteOllamaModel modelId) s,
     [invoke (deleteOllamaModel modelId);
      toast_error
        match error_of (oracle (deleteOllamaModel modelId)) with
        | Some ((_ :: _) as message) => message
        | _ => js "Failed to delete model"
        end]).
Proof.
  intros F. unfold handleModelDelete. rewrite confirmed. cbn [negb exec].
  destruct (oracle (deleteOllamaModel modelId)) as [[[]|message]|];
    [discriminate F | |]; cbn; [destruct message|]; reflexivity.
Qed.

(** X6. When the deleted model is not the selected one, the selection is
    not touched: after the catalogs have been reloaded the handler is done;
    it writes nothing to the settings store and leaves the status, the
    selection and the progress map as they were. *)
Theorem delete_of_another_model_keeps_selection :
  eqb selected modelId = false ->
  oracle (deleteOllamaModel modelId) = resolved (ok tt) ->
  let out := exec oracle quiet (handleModelDelete confirm selected modelId) s in
  ai_selected_model (fst out) = ai_selected_model s
  /\ modelStatus (fst out) = modelStatus s
  /\ pullProgress (fst out) = pullProgress s
  /\ filter is_selection_write (snd out) = []
  /\ In (toast_success (modelId ++ js " deleted")) (snd out)
  /\ In (invoke getAvailableAiModels) (snd out).
Proof.
  intros N D. unfold handleModelDelete. rewrite confirmed, N.
  cbn [negb exec]. rewrite D. unfold loadModels. cbn [exec seq].
  destruct (oracle getAvailableAiModels) as [[models|message]|];
    cbn [exec seq];
    try (destruct (oracle listOllamaModels) as [[names|message']|]);
    cbn; intuition congruence.
Qed.

(** X7. When the deleted model is the selected one but the write of [null]
    is rejected, the user is told both that the model is deleted and that
    the deletion has failed; the model stays selected and the status is not
    set to [not_installed]. *)
Theorem delete_with_rejected_write_keeps_selection :
  eqb selected modelId = true ->
  oracle (deleteOllamaModel modelId) = resolved (ok tt) ->
  oracle (updateSetting_ai_selected_model None) = rejected ->
  let out := exec oracle quiet (handleModelDelete confirm selected modelId) s in
  ai_selected_model (fst out) = ai_selected_model s
  /\ modelStatus (fst out) = modelStatus s
  /\ In (toast_success (modelId ++ js " deleted")) (snd out)
  /\ In (toast_error (js "Failed to delete model")) (snd out).
Proof.
  intros E D U. unfold handleModelDelete. rewrite confirmed, E.
  cbn [negb exec]. rewrite D. unfold loadModels, updateSetting.
  cbn [exec seq].
  destruct (oracle getAvailableAiModels) as [[models|message]|];
    cbn [exec seq];
    try (destruct (oracle listOllamaModels) as [[names|message']|]);
    cbn [exec seq]; rewrite U; cbn; intuition congruence.
Qed.

End Delete.

Lemma failed_delete_changes_nothing_witness :
  let s := setModelStatus ready (initial (Some (js "fast-1b"))) in
  exec refusing quiet
    (handleModelDelete (fun _ => true) (js "fast-1b") (js "fast-1b")) s
  = (s, [invoke (deleteOllamaModel (js "fast-1b"));
         toast_error (js "Failed to delete model")]).
Proof.
  intros s.
  apply (@failed_delete_changes_nothing refusing quiet (fun _ => true) s
           (js "fast-1b") (js "fast-1b")); reflexivity.
Defined.

Lemma delete_of_another_model_keeps_selection_witness :
  let s := setModelStatus ready (initial (Some (js "fast-1b"))) in
  let out :=
    exec obliging quiet
      (handleModelDelete (fun _ => true) (js "fast-1b") (js "big-7b")) s in
  ai_selected_model (fst out) = Some (js "fast-1b")
  /\ modelStatus (fst out) = ready.
Proof.
  intros s out.
  destruct (@delete_of_another_model_keeps_selection obliging (fun _ => true)
              s (js "fast-1b") (js "big-7b")) as (A & B & _);
    try reflexivity.
  split; [exact A | exact B].
Defined.

Lemma delete_with_rejected_write_keeps_selection_witness :
  let s := setModelStatus ready (initial (Some (js "fast-1b"))) in
  let out :=
    exec read_only_settings quiet
      (handleModelDelete (fun _ => true) (js "fast-1b") (js "fast-1b")) s in
  ai_selected_model (fst out) = Some (js "fast-1b")
  /\ modelStatus (fst out) = ready.
Proof.
  intros s out.
  destruct (@delete_with_rejected_write_keeps_selection read_only_settings
              (fun _ => true) s (js "fast-1b") (js "fast-1b")) as (A & B & _);
    try reflexivity.
  split; [exact A | exact B].
Defined.

End SelectorFacts.

(* ================================================================== *)
(** ** Reloading the catalogs, and what the button reads *)
(* ================================================================== *)

Module SelectorDisplayFacts.
Import AiModelSelector AiModelSelectorView JsFacts Outside Answers.

(** X8. [loadModels] fails silently. Whatever the backend answers, it
    shows no notification and touches nothing but the two catalogs; a
    catalog is replaced only by an [ok] answer and otherwise keeps its old
    content; and the downloaded models are asked for unless the call for the
    installable ones was rejected. *)
Theorem loadModels_fails_silently
  (oracle : forall R, command R -> settled R) (s : State) :
  let out := exec oracle quiet loadModels s in
  fst out
  = setDownloadedModels (downloadedModels (fst out))
      (setAvailableModels (availableModels (fst out)) s)
  /\ availableModels (fst out)
     = match oracle _ getAvailableAiModels with
       | resolved (ok data) => data
       | _ => availableModels s
       end
  /\ downloadedModels (fst out)
     = match oracle _ getAvailableAiModels, oracle _ listOllamaModels with
       | resolved _, resolved (ok data) => data
       | _, _ => downloadedModels s
       end
  /\ (In (invoke listOllamaModels) (snd out)
      <-> oracle _ getAvailableAiModels <> rejected)
  /\ Forall (fun e => match e with
                      | invoke _ | console_error _ => True
                      | _ => False
                      end) (snd out).
Proof.
  destruct s. cbv zeta. unfold loadModels. cbn [exec].
  destruct (oracle _ getAvailableAiModels) as [[models|message]|];
    cbn [exec];
    try (destruct (oracle _ listOllamaModels) as [[names|message']|]);
    cbn; (split; [reflexivity|]); (split; [reflexivity|]);
    (split; [reflexivity|]); (split; [|repeat constructor]);
    (split; [intros _; discriminate | intros _; cbn; tauto])
    || (split; [cbn; intuition discriminate | intros N; contradiction N; reflexivity]).
Qed.



(** X10. The button never reads the empty string. *)
Theorem display_text_is_never_empty (s : State) : getDisplayText s <> [].
Proof.
  unfold getDisplayText.
  destruct (map_values (pullProgress s)) as [|progress rest].
  - destruct (modelStatus s); try discriminate.
    unfold or_else. destruct (selectedModel s); discriminate.
  - destruct (gt (percentage progress) 0); discriminate.
Qed.

(** X11. With several pulls under way the button follows the one that
    started first: a progress event of another model leaves the text as it
    is, and when the first model completes the text is that of the model
    that started next. *)
Theorem display_follows_the_first_pull
  (s : State) (first : jsstring) (shown : PullProgress)
  (rest : JsMap PullProgress) :
  pullProgress s = (first, shown) :: rest ->
  (forall progress : PullProgress,
      model_id progress <> first ->
      getDisplayText (fst (fst (run (on_pull_progress progress) s)))
      = getDisplayText s)
  /\ (forall (next : jsstring) (progress : PullProgress)
            (rest' : JsMap PullProgress),
         rest = (next, progress) :: rest' ->
         next <> first ->
         getDisplayText (fst (fst (run (on_pull_complete first) s)))
         = getDisplayText (setPullProgress (fun _ => [(next, progress)]) s)).
Proof.
  intros E. split.
  - intros progress N. unfold getDisplayText.
    cbn [run on_pull_progress fst pullProgress setPullProgress setModelStatus].
    rewrite E. cbn [map_set].
    assert (K : eqb first (model_id progress) = false)
      by (apply eqb_neq; congruence).
    rewrite K. reflexivity.
  - intros next progress rest' R N. subst rest. unfold getDisplayText.
    cbn [run on_pull_complete loadModels fst pullProgress setPullProgress
           setModelStatus].
    rewrite E. unfold map_delete. cbn [filter fst].
    rewrite eqb_refl. cbn [negb].
    assert (K : eqb next first = false) by (apply eqb_neq; exact N).
    rewrite K. reflexivity.
Qed.

Lemma display_follows_the_first_pull_witness :
  let s :=
    setPullProgress
      (fun _ => [(js "fast-1b", Scenarios.downloading (js "fast-1b") 40);
                 (js "big-7b", Scenarios.downloading (js "big-7b") 7)])
      (initial None) in
  getDisplayText
    (fst (fst (run (on_pull_progress (Scenarios.downloading (js "big-7b") 8))
                 s)))
  = js "Pulling 40%"
  /\ getDisplayText (fst (fst (run (on_pull_complete (js "fast-1b")) s)))
     = js "Pulling 7%".
Proof.
  intros s.
  destruct (@display_follows_the_first_pull s (js "fast-1b")
              (Scenarios.downloading (js "fast-1b") 40)
              [(js "big-7b", Scenarios.downloading (js "big-7b") 7)]
              eq_refl) as (A & B).
  split.
  - rewrite A; [reflexivity | discriminate].
  - rewrite (B (js "big-7b") (Scenarios.downloading (js "big-7b") 7) []);
      [reflexivity | reflexivity | discriminate].
Defined.

(** X12. A pull that has failed can come back: a progress event that
    arrives after the failure puts the entry back and the status back to
    [pulling], and the button reads "Pulling ..." again. *)
Theorem late_progress_event_revives_a_failed_pull
  (s : State) (progress : PullProgress) (failure : settled (result unit)) :
  succeeded failure = false ->
  pullProgress s = [] ->
  let failed :=
    steps (start s)
      [OnModelPull (model_id progress); Settle 0 (answer_unit failure)] in
  let revived := step failed (PullProgressEvent progress) in
  (modelStatus (ui failed) = error
   /\ getDisplayText (ui failed) = js "Error")
  /\ modelStatus (ui revived) = pulling
  /\ map_get (model_id progress) (pullProgress (ui revived)) = Some progress
  /\ startsWith (getDisplayText (ui revived)) (js "Pulling ") = true
  /\ pool revived = [].
Proof.
  intros F E. destruct s as [am dm ms sd oa pp rm sel].
  cbn in E; subst pp. cbv zeta.
  destruct failure as [[[]|message]|]; [discriminate F | |];
    (split; [split; reflexivity|]);
    (split; [reflexivity|]);
    (split; [cbn; rewrite eqb_refl; reflexivity|]);
    (split; [|reflexivity]);
    unfold getDisplayText; cbn;
    destruct (gt (percentage progress) 0); reflexivity.
Qed.

Lemma late_progress_event_revives_a_failed_pull_witness :
  let progress := Scenarios.downloading (js "fast-1b") 12 in
  let c :=
    steps (start (initial None))
      [OnModelPull (js "fast-1b");
       Settle 0 (answer_unit rejected);
       PullProgressEvent progress] in
  modelStatus (ui c) = pulling /\ getDisplayText (ui c) = js "Pulling 12%".
Proof.
  intros progress c.
  destruct (@late_progress_event_revives_a_failed_pull (initial None)
              progress rejected) as (_ & A & _); [reflexivity | reflexivity |].
  split; [exact A | reflexivity].
Defined.

End SelectorDisplayFacts.

(* ================================================================== *)
(** ** The rows of the dropdown *)
(* ================================================================== *)

Module DropdownRowFacts.
Import AiModelSelector AiModelSelectorView AiModelDropdown.
Import AiModelDropdownButtons SelectorDropdown JsFacts.

Lemma startsWith_trans (m p q : jsstring) :
  startsWith m p = true -> startsWith p q = true -> startsWith m q = true.
Proof.
  rewrite !startsWith_prefix. intros [s1 ->] [s2 ->].
  exists (s2 ++ s1). symmetry; apply app_assoc.
Qed.

(** X13. The prefix test reports too much rather than too little: with a
    model reported as downloaded, every id that is a prefix of its id is
    reported as downloaded too; the empty id is reported as soon as anything
    is downloaded; and nothing is reported from an empty list. *)
Theorem downloaded_is_closed_under_prefixes :
  (forall (downloaded : list jsstring) (modelId shorter : jsstring),
      isModelDownloaded downloaded modelId = true ->
      startsWith modelId shorter = true ->
      isModelDownloaded downloaded shorter = true)
  /\ (forall downloaded : list jsstring,
        downloaded <> [] -> isModelDownloaded downloaded (js "") = true)
  /\ (forall modelId : jsstring, isModelDownloaded [] modelId = false).
Proof.
  split; [|split].
  - intros downloaded modelId shorter D S. unfold isModelDownloaded in *.
    apply existsb_exists in D. destruct D as (m & I & M).
    apply existsb_exists. exists m. split; [exact I|].
    apply (startsWith_trans _ _ _ M S).
  - intros [|m l] N; [contradiction N; reflexivity | reflexivity].
  - reflexivity.
Qed.

Lemma downloaded_is_closed_under_prefixes_witness :
  isModelDownloaded [js "llama3.2:1b"] (js "llama") = true.
Proof.
  destruct downloaded_is_closed_under_prefixes as (A & _).
  apply (A [js "llama3.2:1b"] (js "llama3.2") (js "llama")); reflexivity.
Defined.

(** X14. The two tests of the repository compared. What the indicator
    finds with [includes] the dropdown reports as downloaded; the dropdown
    reports a model that the indicator does not find exactly when the model
    is downloaded under longer names only. *)
Theorem includes_is_stricter_than_isModelDownloaded
  (downloaded : list jsstring) (modelId : jsstring) :
  (AiStatusIndicator.includes downloaded modelId = true ->
   isModelDownloaded downloaded modelId = true)
  /\ (isModelDownloaded downloaded modelId = true
      /\ AiStatusIndicator.includes downloaded modelId = false
      <-> (exists m suffix,
              In m downloaded /\ m = modelId ++ suffix /\ suffix <> [])
          /\ ~ In modelId downloaded).
Proof.
  unfold AiStatusIndicator.includes, isModelDownloaded.
  assert (Inc : existsb (fun m => eqb m modelId) downloaded = true
                <-> In modelId downloaded).
  { rewrite existsb_exists. split.
    - intros (m & I & E). apply eqb_eq in E. subst; exact I.
    - intros I. exists modelId. split; [exact I | apply eqb_refl]. }
  split.
  - intros H. apply Inc in H. apply existsb_exists. exists modelId.
    split; [exact H|]. apply startsWith_prefix. exists []. symmetry; apply app_nil_r.
  - split.
    + intros [D N]. apply existsb_exists in D. destruct D as (m & I & S).
      apply startsWith_prefix in S. destruct S as [suffix ->].
      assert (NI : ~ In modelId downloaded).
      { intros J. apply Inc in J. congruence. }
      split; [|exact NI].
      exists (modelId ++ suffix), suffix. repeat split; [exact I|].
      intros ->. rewrite app_nil_r in I. contradiction.
    + intros [(m & suffix & I & -> & _) NI]. split.
      * apply existsb_exists. exists (modelId ++ suffix). split; [exact I|].
        apply startsWith_prefix. exists suffix; reflexivity.
      * destruct (existsb (fun m => eqb m modelId) downloaded) eqn:E;
          [|reflexivity]. exfalso. apply NI. apply Inc. reflexivity.
Qed.

Lemma includes_is_stricter_than_isModelDownloaded_witness :
  isModelDownloaded [js "fast-1b"; js "big-7b-q4"] (js "fast-1b") = true
  /\ isModelDownloaded [js "fast-1b"; js "big-7b-q4"] (js "big-7b") = true
  /\ AiStatusIndicator.includes [js "fast-1b"; js "big-7b-q4"] (js "big-7b")
     = false.
Proof.
  destruct (includes_is_stricter_than_isModelDownloaded
              [js "fast-1b"; js "big-7b-q4"] (js "fast-1b")) as (A & _).
  destruct (includes_is_stricter_than_isModelDownloaded
              [js "fast-1b"; js "big-7b-q4"] (js "big-7b")) as (_ & B).
  split; [apply A; reflexivity|].
  apply B. split.
  - exists (js "big-7b-q4"), (js "-q4").
    split; [right; left; reflexivity|]. split; [reflexivity | discriminate].
  - cbn. intuition discriminate.
Defined.

(** X15. The row of a model while it is pulled. From the first progress
    event of the model its row shows the progress of that event and a single
    disabled button, so that nothing can be called from it, and no check
    mark; the completion event of the model puts the buttons back. Between
    the click on Pull and the first progress event the row is as before the
    click: Pull can be clicked again. *)
Theorem row_of_a_model_being_pulled
  (s : State) (model : AiModel) (progress : PullProgress) :
  model_id progress = id model ->
  let pulled := fst (fst (run (on_pull_progress progress) s)) in
  let completed := fst (fst (run (on_pull_complete (id model)) pulled)) in
  let clicked := fst (fst (run (handleModelPull (id model)) s)) in
  (block (dropdown_row pulled model) = Some (render_progress progress)
   /\ isPulling (dropdown_row pulled model) = true
   /\ clicks (dropdown_buttons pulled model) = []
   /\ dropdown_check_mark pulled model = false)
  /\ (isPulling (dropdown_row completed model) = false
      /\ block (dropdown_row completed model) = None
      /\ clicks (dropdown_buttons completed model) <> [])
  /\ dropdown_buttons clicked model = dropdown_buttons s model.
Proof.
  intros M. cbv zeta.
  unfold dropdown_row, dropdown_buttons, dropdown_check_mark, render_row,
    buttons, check_mark, getModelProgress.
  cbn -[map_get map_set map_delete isModelDownloaded eqb].
  rewrite M, map_get_set_eq, map_get_delete_eq.
  split; [repeat split; apply andb_false_r|].
  split; [|reflexivity]. repeat split.
  destruct (isModelDownloaded (downloadedModels s) (id model));
    [|cbn; discriminate].
  match goal with
  | |- context [eqb ?a (id model)] => destruct (eqb a (id model))
  end; cbn; discriminate.
Qed.

Lemma row_of_a_model_being_pulled_witness :
  let model := {| id := js "fast-1b"; size_mb := 700; speed := js "fast";
                  quality := js "good"; notes := js "" |} in
  let pulled :=
    fst (fst (run (on_pull_progress (Scenarios.downloading (js "fast-1b") 3))
                (initial None))) in
  clicks (dropdown_buttons (initial None) model) = [onModelPull (js "fast-1b")]
  /\ clicks (dropdown_buttons pulled model) = [].
Proof.
  intros model pulled. split; [reflexivity|].
  destruct (@row_of_a_model_being_pulled (initial None) model
              (Scenarios.downloading (js "fast-1b") 3) eq_refl)
    as ((_ & _ & C & _) & _).
  exact C.
Defined.

End DropdownRowFacts.

(* ================================================================== *)
(** ** A test of the enhancement *)
(* ================================================================== *)

Module TestRunFacts.
Import AiEnhancementSettings AiEnhancementSettingsView JsFacts Outside Answers.

Lemma not_blank_truthy (text : jsstring) :
  ~ Forall (fun c => is_whitespace c = true) text ->
  truthy (trim text) = true.
Proof.
  intros B. destruct (trim text) eqn:E; [|reflexivity].
  exfalso; apply B; apply trim_blank; exact E.
Qed.

(** X16. A test on a text that is not blank calls the backend once, with
    the text as typed (not trimmed), and always ends: whatever the answer,
    the testing flag is down again. The result shown is the enhanced text
    when the call succeeds; the result of an earlier test is cleared before
    the call, so that after a failure no result is shown. *)
Theorem test_calls_once_and_always_ends
  (oracle : forall R, command R -> settled R)
  (env : forall R, command R -> State -> State) (s : State) :
  ~ Forall (fun c => is_whitespace c = true) (testText s) ->
  let call := testAiEnhancement (testText s) in
  let found := env _ call (setTestResult (js "") (setIsTesting true s)) in
  let out := exec oracle env (handleTestEnhancement (testText s)) s in
  isTesting (fst out) = false
  /\ filter is_invoke (snd out) = [invoke call]
  /\ testResult (fst out)
     = match oracle _ call with
       | resolved (ok data) => data
       | _ => testResult found
       end
  /\ (succeeded (oracle _ call) = false ->
      result_shown
        (fst (exec oracle quiet (handleTestEnhancement (testText s)) s))
      = false).
Proof.
  intros B. cbv zeta. unfold handleTestEnhancement.
  rewrite (not_blank_truthy B). cbn [negb exec].
  destruct (oracle _ (testAiEnhancement (testText s))) as [[data|message]|];
    cbn; repeat split; discriminate.
Qed.

Lemma test_calls_once_and_always_ends_witness :
  let s := setTestResult (js "Hello, world.") (setTestText (js " um hi ") initial) in
  let out := exec backend_down quiet (handleTestEnhancement (testText s)) s in
  isTesting (fst out) = false
  /\ filter is_invoke (snd out) = [invoke (testAiEnhancement (js " um hi "))]
  /\ testResult (fst out) = js "".
Proof.
  intros s out.
  destruct (@test_calls_once_and_always_ends backend_down quiet s)
    as (A & B & C & _).
  - intros F. inversion F as [|? ? _ F1]. inversion F1 as [|? ? W _].
    discriminate W.
  - split; [exact A|]. split; [exact B | exact C].
Defined.

(** X17. The test button and the guard of the handler agree, and the
    button blocks a second test: when the button is enabled a click calls
    the backend; from that turn until the answer the button is disabled; and
    after the answer, whatever it is, the button is enabled again. *)
Theorem test_button_is_disabled_while_testing
  (oracle : forall R, command R -> settled R) (s : State) :
  test_button_disabled s = false ->
  snd (fst (run (handleTestEnhancement (testText s)) s))
  = [invoke (testAiEnhancement (testText s))]
  /\ test_button_disabled (fst (fst (run (handleTestEnhancement (testText s)) s)))
     = true
  /\ test_button_disabled
       (fst (exec oracle quiet (handleTestEnhancement (testText s)) s))
     = false.
Proof.
  unfold test_button_disabled. intros D.
  apply orb_false_iff in D. destruct D as [T G].
  apply negb_false_iff in G. unfold handleTestEnhancement. rewrite G.
  cbn [negb run exec fst snd]. split; [reflexivity|]. split; [reflexivity|].
  destruct (oracle _ (testAiEnhancement (testText s))) as [[data|message]|];
    cbn [exec fst isTesting testText setIsTesting setTestResult orb quiet];
    rewrite G; reflexivity.
Qed.

Lemma test_button_is_disabled_while_testing_witness :
  let s := setTestText (js "um hi") initial in
  test_button_disabled s = false
  /\ test_button_disabled
       (fst (fst (run (handleTestEnhancement (testText s)) s))) = true.
Proof.
  intros s. split; [reflexivity|].
  destruct (@test_button_is_disabled_while_testing obliging s eq_refl)
    as (_ & A & _).
  exact A.
Defined.

End TestRunFacts.

(* ================================================================== *)
(** ** The indicator and the status button *)
(* ================================================================== *)

Module IndicatorFacts.
Import AiStatusIndicator AiStatusIndicatorView JsFacts Outside Answers.

Lemma includes_In (data : list jsstring) (x : jsstring) :
  includes data x = true <-> In x data.
Proof.
  unfold includes. rewrite existsb_exists. split.
  - intros (m & I & E). apply eqb_eq in E. subst; exact I.
  - intros I. exists x. split; [exact I | apply eqb_refl].
Qed.

(** X18. The indicator turns [ready] only on an exact match. A status
    check started in a state that is not [ready] ends [ready] exactly when
    the backend is available, the enhancement is enabled, a model is
    selected and the list of downloaded models holds that very id; the
    current model is then the selected one. *)
Theorem indicator_turns_ready_on_an_exact_match
  (oracle : forall R, command R -> settled R) (s : State)
  (aiEnabled : bool) (selectedModel : jsstring) :
  status s <> ready ->
  let out := fst (exec oracle quiet (checkStatus aiEnabled selectedModel) s) in
  (status out = ready <->
   oracle _ checkOllamaAvailable = resolved (ok true)
   /\ aiEnabled = true
   /\ selectedModel <> []
   /\ exists data,
        oracle _ listOllamaModels = resolved (ok data) /\ In selectedModel data)
  /\ (status out = ready ->
      currentModel out = selectedModel /\ In selectedModel (downloadedModels out)).
Proof.
  intros N. cbv zeta. unfold checkStatus. cbn [exec].
  destruct (oracle _ checkOllamaAvailable) as [[[]|message]|] eqn:A;
    cbn [negb exec fst status setStatus setOllamaAvailable];
    try (split; [split; [discriminate | intros (H & _); discriminate H]
                | discriminate]).
  destruct aiEnabled; cbn [negb exec fst status setStatus setOllamaAvailable];
    [|split; [split; [discriminate | intros (_ & H & _); discriminate H]
             | discriminate]].
  destruct (oracle _ listOllamaModels) as [[data|message]|] eqn:L;
    cbn [exec fst status setStatus setOllamaAvailable setDownloadedModels].
  - destruct selectedModel as [|x t]; cbn [truthy andb].
    + cbn. split; [split; [discriminate | intros (_ & _ & H & _); congruence]
                  | discriminate].
    + destruct (includes data (x :: t)) eqn:I; cbn.
      * apply includes_In in I. split; [|intros _; split; [reflexivity | exact I]].
        split; [intros _|reflexivity].
        repeat split; [discriminate|]. exists data. split; [reflexivity | exact I].
      * split; [|discriminate]. split; [discriminate|].
        intros (_ & _ & _ & data' & E & J). inversion E; subst data'.
        apply includes_In in J. congruence.
  - cbn. split; [split; [contradiction | intros (_ & _ & _ & d & E & _); discriminate E]
                | contradiction].
  - cbn. split; [split; [discriminate | intros (_ & _ & _ & d & E & _); discriminate E]
                | discriminate].
Qed.

Lemma indicator_turns_ready_on_an_exact_match_witness :
  status (fst (exec (listing [js "fast-1b"]) quiet
                 (checkStatus true (js "fast-1b")) initial)) = ready
  /\ status (fst (exec (listing [js "fast-1b-q4"]) quiet
                    (checkStatus true (js "fast-1b")) initial)) <> ready.
Proof.
  split.
  - destruct (@indicator_turns_ready_on_an_exact_match (listing [js "fast-1b"])
                initial true (js "fast-1b")) as ([_ B] & _); [discriminate|].
    apply B. repeat split; [discriminate|]. exists [js "fast-1b"].
    split; [reflexivity | left; reflexivity].
  - destruct (@indicator_turns_ready_on_an_exact_match
                (listing [js "fast-1b-q4"]) initial true (js "fast-1b"))
      as ([F _] & _); [discriminate|].
    intros R. apply F in R.
    destruct R as (_ & _ & _ & data & E & I). inversion E; subst data.
    destruct I as [I|[]]. discriminate I.
Defined.

Lemma before_colon_prefix (s : jsstring) : startsWith s (before_colon s) = true.
Proof.
  induction s as [|c s IH]; cbn; [reflexivity|].
  destruct (c =? 58)%N; cbn; [reflexivity|].
  rewrite N.eqb_refl. exact IH.
Qed.

Lemma before_colon_no_colon (s : jsstring) : ~ In 58%N (before_colon s).
Proof.
  induction s as [|c s IH]; cbn; [tauto|].
  destruct (c =? 58)%N eqn:E; cbn; [tauto|].
  apply N.eqb_neq in E. intros [H|H]; [congruence | exact (IH H)].
Qed.

(** X19. The text of the indicator is never empty. When the status is
    [ready] the text is "AI" or the beginning of the current model, and in
    both cases holds no colon: the tag of a model is never shown. *)
Theorem indicator_text_is_a_name_without_tag (s : State) :
  getDisplayText s <> []
  /\ (status s = ready ->
      (getDisplayText s = js "AI"
       \/ startsWith (currentModel s) (getDisplayText s) = true)
      /\ ~ In 58%N (getDisplayText s)).
Proof.
  unfold getDisplayText. split.
  - destruct (status s); try discriminate;
      try (destruct (pullProgress s); [|discriminate];
           intros E; apply app_eq_nil in E; destruct E; discriminate).
    unfold or_else. destruct (before_colon (currentModel s)); discriminate.
  - intros R. rewrite R. unfold or_else.
    destruct (before_colon (currentModel s)) as [|c t] eqn:E; cbn [truthy].
    + split; [left; reflexivity|]. cbn. intuition discriminate.
    + rewrite <- E. split; [right; apply before_colon_prefix|].
      apply before_colon_no_colon.
Qed.

Lemma indicator_text_is_a_name_without_tag_witness :
  getDisplayText (setStatus ready (setCurrentModel (js "llama3.2:1b") initial))
  = js "llama3.2"
  /\ ~ In 58%N (getDisplayText
                  (setStatus ready (setCurrentModel (js "llama3.2:1b") initial))).
Proof.
  split; [reflexivity|].
  destruct (indicator_text_is_a_name_without_tag
              (setStatus ready (setCurrentModel (js "llama3.2:1b") initial)))
    as (_ & A).
  apply A. reflexivity.
Defined.

(** X21. The indicator can stay at [pulling] after a pull has completed.
    The completion event clears the progress and starts a status check, and
    the status is left alone until that check has set it; when the list of
    downloaded models then comes back as an error result, the check sets no
    status at all: the indicator keeps reading "Pulling..." and its button
    stays disabled, with nothing left pending. *)
Theorem indicator_can_stay_at_pulling
  (s : State) (payload : AiPullProgress) (selectedModel message : jsstring) :
  let pulled := fire (on_pull_progress payload) (start s) in
  let completed := fire (on_pull_complete true selectedModel) pulled in
  let checked :=
    settle 0 (answer_strings (resolved (err message)))
      (settle 0 (answer_bool (resolved (ok true))) completed) in
  (status (ui completed) = pulling
   /\ pullProgress (ui completed) = None
   /\ getDisplayText (ui completed) = js "Pulling...")
  /\ status (ui checked) = pulling
  /\ getDisplayText (ui checked) = js "Pulling..."
  /\ button_disabled (ui checked) = true
  /\ pool checked = [].
Proof. cbv zeta. repeat split. Qed.

End IndicatorFacts.

(* ================================================================== *)
(** ** The status button *)
(* ================================================================== *)

Module StatusButtonFacts.

(** X20. The dot of the status button has one colour for each status,
    except that [error] and [ollama_unavailable] share theirs: by the dot
    alone a failed operation and a missing backend look the same. *)
Theorem status_colours_tell_statuses_apart (a b : AiModelStatus) :
  AiModelStatusButton.getStatusColor a = AiModelStatusButton.getStatusColor b
  <-> a = b
      \/ (a = error /\ b = ollama_unavailable)
      \/ (a = ollama_unavailable /\ b = error).
Proof.
  destruct a, b; cbn; split; intros H;
    try discriminate H; try reflexivity;
    try (left; reflexivity);
    try (right; left; split; reflexivity);
    try (right; right; split; reflexivity);
    destruct H as [H|[[H1 H2]|[H1 H2]]]; discriminate.
Qed.

End StatusButtonFacts.
